(** * YC founders scraper: text parser, link resolver, exporter, scroll loop

    A shallow embedding of [src/yc_founders_scraper.py] (class
    [YCFoundersScraper]) and the properties of its pipeline stages.

    Modelling conventions.
    - A Python [str] is a [string]; a character is a code point below 256,
      so the whitespace class of [str.strip]/[str.split] and the case
      mapping of [str.lower] are the ones Python has on that range, and the
      regular-expression class [\d] is the ten decimal digits.
    - A Python [dict] with string keys is a [gmap string pyval]; a value is
      [None] or a [str].
    - The browser is an oracle: a page is the list of elements a selector
      returns, an element is what [get_attribute] and [text] return. *)

From Stdlib Require Import ZArith Ascii String List Bool Lia.
From stdpp Require Import gmap strings list fin_maps.

Open Scope string_scope.
Open Scope nat_scope.

(** ** Python string primitives *)

Module Py.

(** [''.join(...)] on characters is the identity of [string]; [len]. *)
Definition len (s : string) : nat := String.length s.

Definition is_empty (s : string) : bool :=
  match s with EmptyString => true | String _ _ => false end.

(** [str.isspace] for one character, code points below 256:
    TAB LF VT FF CR, FS GS RS US, SPACE, NEL (0x85), NBSP (0xA0). *)
Definition isspace (c : ascii) : bool :=
  let n := nat_of_ascii c in
  ((9 <=? n) && (n <=? 13)) || ((28 <=? n) && (n <=? 32))
  || (n =? 133) || (n =? 160).

(** [\d] of [re] on the same range: '0'..'9'. *)
Definition isdigit (c : ascii) : bool :=
  let n := nat_of_ascii c in (48 <=? n) && (n <=? 57).

(** [str.lower] for one character: A-Z, and 0xC0-0xDE except 0xD7. *)
Definition lower_char (c : ascii) : ascii :=
  let n := nat_of_ascii c in
  if ((65 <=? n) && (n <=? 90))
     || ((192 <=? n) && (n <=? 222) && negb (n =? 215))
  then ascii_of_nat (n + 32) else c.

Fixpoint lower (s : string) : string :=
  match s with
  | EmptyString => EmptyString
  | String c s' => String (lower_char c) (lower s')
  end.

Fixpoint lstrip (s : string) : string :=
  match s with
  | EmptyString => EmptyString
  | String c s' => if isspace c then lstrip s' else s
  end.

Fixpoint rstrip (s : string) : string :=
  match s with
  | EmptyString => EmptyString
  | String c s' =>
      let r := rstrip s' in
      if isspace c && is_empty r then EmptyString else String c r
  end.

(** [s.strip()] *)
Definition strip (s : string) : string := rstrip (lstrip s).

(** [sub in s] *)
Fixpoint contains (sub s : string) : bool :=
  String.prefix sub s
  || match s with
     | EmptyString => false
     | String _ s' => contains sub s'
     end.

Fixpoint drop (n : nat) (s : string) : string :=
  match n, s with
  | O, _ => s
  | S _, EmptyString => EmptyString
  | S n', String _ s' => drop n' s'
  end.

(** The leftmost occurrence of [sep] in [s]: the text before it and the
    text after it. *)
Fixpoint split_once (sep s : string) : option (string * string) :=
  if String.prefix sep s then Some (EmptyString, drop (len sep) s)
  else match s with
       | EmptyString => None
       | String c s' =>
           match split_once sep s' with
           | Some (a, b) => Some (String c a, b)
           | None => None
           end
       end.

(** [s.split(sep, maxsplit)] for a non-empty [sep]: at most [maxsplit]
    cuts, each at the leftmost occurrence in what is left. *)
Fixpoint split_max (maxsplit : nat) (sep s : string) : list string :=
  match maxsplit with
  | O => [s]
  | S n =>
      match split_once sep s with
      | None => [s]
      | Some (a, b) => a :: split_max n sep b
      end
  end.

(** [s.split(sep)]: every cut consumes at least one character, so
    [len s] cuts are as good as unboundedly many. *)
Definition split (sep s : string) : list string := split_max (len s) sep s.

(** [s.split()]: maximal runs of non-whitespace characters; [acc] is the
    run being read. *)
Fixpoint split_ws_acc (acc s : string) : list string :=
  match s with
  | EmptyString => if is_empty acc then [] else [acc]
  | String c s' =>
      if isspace c
      then (if is_empty acc then split_ws_acc EmptyString s'
            else acc :: split_ws_acc EmptyString s')
      else split_ws_acc (acc +:+ String c EmptyString) s'
  end.

Definition split_ws (s : string) : list string := split_ws_acc EmptyString s.

(** [sep.join(parts)] *)
Fixpoint join (sep : string) (parts : list string) : string :=
  match parts with
  | [] => EmptyString
  | [p] => p
  | p :: ps => p +:+ sep +:+ join sep ps
  end.

(** [s.replace(old, new)] for a non-empty [old]: the pieces between the
    non-overlapping leftmost occurrences of [old], glued with [new]. *)
Definition replace (old new s : string) : string := join new (split old s).

(** [xs[-1]] on a non-empty list of strings. *)
Definition last_part (xs : list string) : string := List.last xs EmptyString.

(** [xs[0]] on a non-empty list of strings. *)
Definition first_part (xs : list string) : string := List.hd EmptyString xs.

End Py.

(** ** Python values and dictionaries *)

Inductive pyval : Type :=
| PNone : pyval
| PStr : string -> pyval.

(** Truthiness of what [d.get(k)] returns: absent, [None] and [''] are
    false. *)
Definition truthy (o : option pyval) : bool :=
  match o with
  | Some (PStr s) => negb (Py.is_empty s)
  | _ => false
  end.

(** The string stored under a key, [''] standing for anything else. *)
Definition str_at (d : gmap string pyval) (k : string) : string :=
  match d !! k with
  | Some (PStr s) => s
  | _ => EmptyString
  end.

(** ** Text parser: [parse_founder_text] *)

Definition role_indicators : list string :=
  ["CEO"; "CTO"; "Founder"; "Co-founder"; "President"; "VP"; "Chief";
   "Director"].

(** [any(indicator in line for indicator in role_indicators)] *)
Definition has_indicator (line : string) : bool :=
  existsb (fun indicator => Py.contains indicator line) role_indicators.

(** [' at ' in line and any(...)]: the "Role at Company" test. *)
Definition is_role_at_company (line : string) : bool :=
  Py.contains " at " line && has_indicator line.

Definition is_SWFX (c : ascii) : bool :=
  match c with
  | "S"%char | "W"%char | "F"%char | "X"%char => true
  | _ => false
  end.

(** Does a match of [[SWFX]\d{2}] start at the head of [s]? *)
Definition batch_here (s : string) : option string :=
  match s with
  | String a (String b (String c _)) =>
      if is_SWFX a && Py.isdigit b && Py.isdigit c
      then Some (String a (String b (String c EmptyString)))
      else None
  | _ => None
  end.

(** [re.search(r'[SWFX]\d{2}', line)], giving [batch_match.group()]. *)
Fixpoint re_search_batch (s : string) : option string :=
  match batch_here s with
  | Some m => Some m
  | None =>
      match s with
      | EmptyString => None
      | String _ s' => re_search_batch s'
      end
  end.

(** The line feed, ['\n']. *)
Definition nl : string := String "010"%char EmptyString.

(** [[line.strip() for line in text.split('\n') if line.strip()]] *)
Definition nonblank (line : string) : bool :=
  negb (Py.is_empty (Py.strip line)).

Definition lines_of (text : string) : list string :=
  List.map Py.strip (List.filter nonblank (Py.split nl text)).

Definition empty_founder_info : gmap string pyval :=
  <["linkedin_url" := PStr ""]>
  (<["batch" := PStr ""]>
  (<["current_company" := PStr ""]>
  (<["current_role" := PStr ""]>
  (<["last_name" := PStr ""]>
  (<["first_name" := PStr ""]> ∅))))).

(** The name block: [name_parts = lines[0].split()] and its two cases. *)
Definition set_name (line0 : string) (founder_info : gmap string pyval)
  : gmap string pyval :=
  match Py.split_ws line0 with
  | [] => founder_info
  | [p0] => <["first_name" := PStr p0]> founder_info
  | p0 :: rest =>
      <["last_name" := PStr (Py.join " " rest)]>
        (<["first_name" := PStr p0]> founder_info)
  end.

(** One iteration of [for line in lines[1:]]. *)
Definition parse_line (founder_info : gmap string pyval) (line : string)
  : gmap string pyval :=
  if is_role_at_company line then
    match Py.split_max 1 " at " line with
    | [p0; p1] =>
        <["current_company" := PStr (Py.strip p1)]>
          (<["current_role" := PStr (Py.strip p0)]> founder_info)
    | _ => founder_info
    end
  else
    match re_search_batch line with
    | Some m =>
        if negb (truthy (founder_info !! "batch"))
        then <["batch" := PStr m]> founder_info
        else if negb (truthy (founder_info !! "current_role"))
                && has_indicator line
        then <["current_role" := PStr line]> founder_info
        else founder_info
    | None =>
        if negb (truthy (founder_info !! "current_role"))
           && has_indicator line
        then <["current_role" := PStr line]> founder_info
        else founder_info
    end.

(** [s.replace('**', '').strip()] *)
Definition clean (s : string) : string := Py.strip (Py.replace "**" "" s).

(** The "Clean up extracted data" block for one key. *)
Definition clean_key (k : string) (founder_info : gmap string pyval)
  : gmap string pyval :=
  if truthy (founder_info !! k)
  then <[k := PStr (clean (str_at founder_info k))]> founder_info
  else founder_info.

Definition parse_lines (lines : list string) : gmap string pyval :=
  match lines with
  | [] => empty_founder_info
  | line0 :: rest =>
      clean_key "current_company"
        (clean_key "current_role"
           (fold_left parse_line rest (set_name line0 empty_founder_info)))
  end.

Definition parse_founder_text (text : string) : gmap string pyval :=
  parse_lines (lines_of text).


(** ** Profile link resolver: [extract_linkedin_url] *)

(** What [driver.get(profile_url)] and the selector query give: the page
    did not load (a timeout or any other exception), or the matched
    elements, each by what [get_attribute('href')] returns; [None] is an
    absent attribute, or a call that raised and was skipped. *)
Inductive page_load : Type :=
| LoadFailed : page_load
| Loaded : list (option string) -> page_load.

(** One iteration of [for element in linkedin_elements], on the pair
    [(personal_linkedin_urls, company_linkedin_urls)]. *)
Definition categorize (acc : list string * list string)
    (element : option string) : list string * list string :=
  match element with
  | None => acc
  | Some linkedin_url =>
      if Py.is_empty linkedin_url
         || negb (Py.contains "linkedin.com" linkedin_url)
      then acc
      else if Py.contains "/in/" linkedin_url
      then ((fst acc ++ [linkedin_url])%list, snd acc)
      else if Py.contains "/company/" linkedin_url
      then (fst acc, (snd acc ++ [linkedin_url])%list)
      else if Py.contains "/pub/" linkedin_url
      then ((fst acc ++ [linkedin_url])%list, snd acc)
      else acc
  end.

Definition founder_name_from_url (profile_url : string) : string :=
  if Py.contains "/founders/" profile_url then
    let url_parts :=
      Py.split "-" (Py.last_part (Py.split "/founders/" profile_url)) in
    if 1 <? length url_parts
    then Py.lower (Py.join "-" (List.tl url_parts))
    else ""
  else "".

(** [linkedin_url.split("/in/")[-1].split("/")[0].lower()] *)
Definition linkedin_username (linkedin_url : string) : string :=
  Py.lower
    (Py.first_part (Py.split "/" (Py.last_part (Py.split "/in/" linkedin_url)))).

(** The name fragments that take part in the comparison. *)
Definition name_parts (name : string) : list string :=
  List.filter (fun name_part => 2 <? Py.len name_part) (Py.split "-" name).

(** [founder_name_from_url and any(name_part in linkedin_username ...)] *)
Definition name_matches (name linkedin_url : string) : bool :=
  negb (Py.is_empty name)
  && existsb (fun name_part =>
                Py.contains name_part (linkedin_username linkedin_url))
       (name_parts name).

(** The loop that sets [best_match] and breaks at the first hit. *)
Definition best_match (name : string) (personal : list string)
  : option string :=
  List.find (name_matches name) personal.

(** [best_match or personal_linkedin_urls[0]] *)
Definition or_first (best : option string) (first : string) : string :=
  match best with
  | Some url => if Py.is_empty url then first else url
  | None => first
  end.

Definition extract_linkedin_url (profile_url : string) (page : page_load)
  : option string :=
  if Py.is_empty profile_url then None
  else
    match page with
    | LoadFailed => None
    | Loaded linkedin_elements =>
        let '(personal_linkedin_urls, company_linkedin_urls) :=
          fold_left categorize linkedin_elements ([], []) in
        match personal_linkedin_urls with
        | first :: _ =>
            Some (or_first
                    (best_match (founder_name_from_url profile_url)
                       personal_linkedin_urls)
                    first)
        | [] =>
            match company_linkedin_urls with
            | first :: _ => Some first
            | [] => None
            end
        end
    end.

(** ** Exporter: [save_to_csv] *)

Definition columns : list string :=
  ["first_name"; "last_name"; "current_role"; "current_company"; "batch";
   "linkedin_url"; "profile_url"].

(** How the [csv] writer renders a value: [None] as the empty field. *)
Definition csv_field (v : pyval) : string :=
  match v with
  | PNone => ""
  | PStr s => s
  end.

(** [{col: founder.get(col, '') for col in columns}], as [writerow] lays
    it out in [fieldnames] order. *)
Definition row_of (founder : gmap string pyval) : list string :=
  List.map (fun col => csv_field (default (PStr "") (founder !! col)))
    columns.

(** A file is the list of rows written to it; the file system maps a file
    name to its content. *)
Definition save_to_csv (data : list (gmap string pyval)) (filename : string)
    (fs : gmap string (list (list string))) : gmap string (list (list string)) :=
  match data with
  | [] => fs
  | _ :: _ => <[filename := columns :: List.map row_of data]> fs
  end.

(** ** Exhaustive loader: the loop of [scroll_to_load_all_founders] *)

Record scroll_state : Type := mk_scroll {
  last_height : Z;
  founders_loaded : nat;
  no_change_count : nat
}.

(** One pass of the loop body on what the page shows after the scroll,
    [(new_height, current_founders)]; [inl] is [break]. *)
Definition scroll_body (obs : Z * nat) (st : scroll_state)
  : scroll_state + scroll_state :=
  let '(new_height, current_founders) := obs in
  let '(loaded, count) :=
    if founders_loaded st <? current_founders
    then (current_founders, 0)
    else (founders_loaded st, no_change_count st + 1) in
  if (new_height =? last_height st)%Z then
    let count := count + 1 in
    if 3 <=? count
    then inl (mk_scroll (last_height st) loaded count)
    else inr (mk_scroll new_height loaded count)
  else inr (mk_scroll new_height loaded 0).

(** [while True] with the page as an oracle: [page i] is what pass [i]
    observes. The result is the number of passes made and the final
    state; [None] when [fuel] passes were not enough. *)
Fixpoint scroll_loop (fuel : nat) (page : nat -> Z * nat) (i : nat)
    (st : scroll_state) : option (nat * scroll_state) :=
  match fuel with
  | O => None
  | S fuel' =>
      match scroll_body (page i) st with
      | inl st' => Some (S i, st')
      | inr st' => scroll_loop fuel' page (S i) st'
      end
  end.

Definition scroll_to_load_all_founders (fuel : nat) (initial_height : Z)
    (page : nat -> Z * nat) : option (nat * scroll_state) :=
  scroll_loop fuel page 0 (mk_scroll initial_height 0 0).

(** ** Overview extractor and the main routine *)

(** An entry element: reading it raised (the element is skipped), or its
    [href] attribute, absent or a string, and its text. *)
Inductive element : Type :=
| Stale : element
| Elem : option string -> string -> element.

Definition href_value (href : option string) : pyval :=
  match href with
  | None => PNone
  | Some url => PStr url
  end.

Definition extract_founder_overview_data (primary fallback : list element)
  : list (gmap string pyval) :=
  let founders_elements :=
    match primary with [] => fallback | _ :: _ => primary end in
  List.flat_map
    (fun el =>
       match el with
       | Stale => []
       | Elem href text =>
           [<["profile_url" := href_value href]>
              (parse_founder_text (Py.strip text))]
       end)
    founders_elements.

(** The body of [for i, founder in enumerate(founders_data)]; [page] is
    what the visit of this founder's profile gives. *)
Definition resolve_founder (page : string -> page_load)
    (founder : gmap string pyval) : gmap string pyval :=
  if truthy (founder !! "profile_url") then
    let profile_url := str_at founder "profile_url" in
    let linkedin_url := extract_linkedin_url profile_url (page profile_url) in
    <["linkedin_url" := PStr (default "" linkedin_url)]> founder
  else founder.

(** The browser session: it could not be set up or the directory page did
    not load (the routine returns [[]]), or the entry elements the two
    selectors give. *)
Inductive session : Type :=
| SessionFailed : session
| Session : list element -> list element -> session.

(** [web i] is the browser at the visit made for founder number [i]. *)
Definition scrape_founders (s : session) (web : nat -> string -> page_load)
  : list (gmap string pyval) :=
  match s with
  | SessionFailed => []
  | Session primary fallback =>
      imap (fun i founder => resolve_founder (web i) founder)
        (extract_founder_overview_data primary fallback)
  end.

(** ** The entry points *)

(** [main] of [run_yc_scraper.py]: scrape, then save under the default
    file name. *)
Definition run_main (s : session) (web : nat -> string -> page_load)
    (fs : gmap string (list (list string))) : gmap string (list (list string)) :=
  save_to_csv (scrape_founders s web) "yc_founders.csv" fs.

(** [scrape_founders] with the exhaustive loader in its place, between
    the load of the directory page and the extraction: [scroll] is what
    the passes of the scroll loop observe. The routine returns only when
    the loop has ended; [None] is a run whose loop has not ended within
    [fuel] passes. A failed session returns [[]] before the loop. *)
Definition scrape_founders_loading (fuel : nat) (initial_height : Z)
    (scroll : nat -> Z * nat) (s : session)
    (web : nat -> string -> page_load)
  : option (list (gmap string pyval)) :=
  match s with
  | SessionFailed => Some []
  | Session _ _ =>
      match scroll_to_load_all_founders fuel initial_height scroll with
      | Some _ => Some (scrape_founders s web)
      | None => None
      end
  end.

(** [main] of [run_yc_scraper.py] over that routine: the file system
    after the run, or [None] when the run has not returned. *)
Definition run_main_loading (fuel : nat) (initial_height : Z)
    (scroll : nat -> Z * nat) (s : session)
    (web : nat -> string -> page_load)
    (fs : gmap string (list (list string)))
  : option (gmap string (list (list string))) :=
  match scrape_founders_loading fuel initial_height scroll s web with
  | Some data => Some (save_to_csv data "yc_founders.csv" fs)
  | None => None
  end.

(** The summary figure of [main]:
    [sum(1 for f in founders_data if f.get('linkedin_url'))]. *)
Definition with_linkedin (founders_data : list (gmap string pyval)) : nat :=
  length (List.filter (fun f => truthy (f !! "linkedin_url")) founders_data).

(** ** Reference definitions used in the statements *)

Definition has_batch (line : string) : bool :=
  match re_search_batch line with Some _ => true | None => false end.

(** A line the batch code can be taken from: one after the name line that
    is not a "Role at Company" line and holds a batch code. *)
Definition batch_line (line : string) : bool :=
  negb (is_role_at_company line) && has_batch line.

(** The batch code of the earliest such line of [rest], or ['']. *)
Definition batch_of_lines (rest : list string) : string :=
  match List.find batch_line rest with
  | Some line => default "" (re_search_batch line)
  | None => ""
  end.

(** [rest] without the first of its lines that holds a batch code. *)
Fixpoint without_batch_line (rest : list string) : list string :=
  match rest with
  | [] => []
  | line :: rest' =>
      if has_batch line then rest' else line :: without_batch_line rest'
  end.

(** The first line with a title keyword, or ['']. *)
Definition first_indicator_line (lines : list string) : string :=
  default "" (List.find has_indicator lines).

(** The cleaned first line with a title keyword among the lines the batch
    code was not taken from, or ['']. *)
Definition bare_role_of_lines (rest : list string) : string :=
  clean (first_indicator_line (without_batch_line rest)).

(** The specification's reading of the batch rule: the code of the
    earliest line of the whole block that holds one. *)
Definition first_batch_in_any_line (text : string) : string :=
  match List.find has_batch (Py.split nl text) with
  | Some line => default "" (re_search_batch line)
  | None => ""
  end.

(** The specification's reading of the bare-keyword rule: the first line
    of the whole block with a title keyword, markers removed and nothing
    else done to it. *)
Definition first_keyword_line_unmarked (text : string) : string :=
  Py.replace "**" "" (first_indicator_line (Py.split nl text)).

(** The links the resolver takes in, in the order of discovery: the
    [href] values that are non-empty strings naming the network's domain. *)
Definition linkedin_links (elements : list (option string)) : list string :=
  List.flat_map
    (fun element =>
       match element with
       | Some url =>
           if negb (Py.is_empty url) && Py.contains "linkedin.com" url
           then [url] else []
       | None => []
       end)
    elements.

(** The two classes as the resolver tells them apart: [/in/] makes a link
    personal; without it [/company/] makes it organizational; without
    both [/pub/] makes it personal. *)
Definition is_personal (url : string) : bool :=
  Py.contains "/in/" url
  || (negb (Py.contains "/company/" url) && Py.contains "/pub/" url).

Definition is_company (url : string) : bool :=
  negb (Py.contains "/in/" url) && Py.contains "/company/" url.

(** The two classes as the specification words them. *)
Definition is_personal_as_specified (url : string) : bool :=
  Py.contains "/in/" url || Py.contains "/pub/" url.

Definition is_company_as_specified (url : string) : bool :=
  Py.contains "/company/" url.

(** The selection rule of the specification over given classes: the first
    personal link whose token holds a name fragment, else the first
    personal link, else the first organizational link, else none. *)
Definition select_link (personal company : string -> bool)
    (profile_url : string) (elements : list (option string))
  : option string :=
  let links := linkedin_links elements in
  match List.find (name_matches (founder_name_from_url profile_url))
          (List.filter personal links) with
  | Some url => Some url
  | None =>
      match List.filter personal links with
      | first :: _ => Some first
      | [] =>
          match List.filter company links with
          | first :: _ => Some first
          | [] => None
          end
      end
  end.

(** The six keys the parser creates, and what it is for a record to have
    a string under a key. *)
Definition parser_keys : list string :=
  ["first_name"; "last_name"; "current_role"; "current_company"; "batch";
   "linkedin_url"].

Definition is_str (d : gmap string pyval) (k : string) : Prop :=
  exists s, d !! k = Some (PStr s).

(** Every character of a string passes a test. *)
Fixpoint all_chars (P : ascii -> bool) (s : string) : bool :=
  match s with
  | EmptyString => true
  | String c s' => P c && all_chars P s'
  end.

Definition nonspace (c : ascii) : bool := negb (Py.isspace c).

(** The [href] values of the entry elements that could be read. *)
Definition live_hrefs (elements : list element) : list (option string) :=
  List.flat_map
    (fun el => match el with Stale => [] | Elem href _ => [href] end)
    elements.

(** The largest entry count seen in the first [n] passes. *)
Fixpoint max_seen (page : nat -> Z * nat) (n : nat) : nat :=
  match n with
  | O => 0
  | S n' => Nat.max (max_seen page n') (snd (page n'))
  end.

(** A line as the loop sees it: non-empty, starting with a character that
    is not whitespace. *)
Definition stripped (line : string) : Prop :=
  exists c r, line = String c r /\ Py.isspace c = false.

(** ** Facts about the string primitives *)

Section StringFacts.

Lemma prefix_app a s t :
  String.prefix a s = true -> String.prefix a (s +:+ t) = true.
Proof.
  revert s. induction a as [|x a IH]; intros s H.
  - by destruct (s +:+ t).
  - destruct s as [|y s]; simpl in *; [discriminate|].
    destruct (ascii_dec x y); [auto | discriminate].
Qed.

Lemma append_cons c s t : String c s +:+ t = String c (s +:+ t).
Proof. reflexivity. Qed.

Lemma contains_nil sub : Py.contains sub "" = String.prefix sub "".
Proof. simpl. apply orb_false_r. Qed.

Lemma contains_cons sub c s :
  Py.contains sub (String c s)
  = String.prefix sub (String c s) || Py.contains sub s.
Proof. reflexivity. Qed.

Lemma split_once_nil sep :
  Py.split_once sep ""
  = if String.prefix sep "" then Some ("", Py.drop (Py.len sep) "") else None.
Proof. reflexivity. Qed.

Lemma split_once_cons sep c s :
  Py.split_once sep (String c s)
  = if String.prefix sep (String c s)
    then Some ("", Py.drop (Py.len sep) (String c s))
    else match Py.split_once sep s with
         | Some (a, b) => Some (String c a, b)
         | None => None
         end.
Proof. reflexivity. Qed.

Lemma contains_app_l a s t :
  Py.contains a s = true -> Py.contains a (s +:+ t) = true.
Proof.
  induction s as [|c s IH]; intros H.
  - rewrite contains_nil in H. destruct a; [|discriminate].
    by destruct t.
  - rewrite contains_cons in H.
    change (String c s +:+ t) with (String c (s +:+ t)).
    rewrite contains_cons.
    apply orb_true_iff in H as [H|H].
    + change (String c (s +:+ t)) with (String c s +:+ t).
      by rewrite (prefix_app _ _ _ H).
    + rewrite (IH H). apply orb_true_r.
Qed.

Lemma prefix_head x a y s :
  String.prefix (String x a) (String y s) = true -> x = y.
Proof. simpl. by destruct (ascii_dec x y). Qed.

Lemma prefix_drop sep s :
  String.prefix sep s = true -> s = sep +:+ Py.drop (Py.len sep) s.
Proof.
  revert s. induction sep as [|x sep IH]; intros s H; [reflexivity|].
  destruct s as [|y s]; simpl in *; [discriminate|].
  destruct (ascii_dec x y) as [->|]; [|discriminate].
  change (String y s = String y (sep +:+ Py.drop (Py.len sep) s)).
  f_equal. apply IH, H.
Qed.

(** The two pieces and the separator make up the string again. *)
Lemma split_once_sound sep s a b :
  Py.split_once sep s = Some (a, b) -> s = a +:+ sep +:+ b.
Proof.
  revert a b. induction s as [|c s IH]; intros a b.
  - rewrite split_once_nil. destruct (String.prefix sep "") eqn:E; [|discriminate].
    intros [= <- <-]. apply (prefix_drop _ _ E).
  - rewrite split_once_cons.
    destruct (String.prefix sep (String c s)) eqn:E.
    + intros [= <- <-]. apply (prefix_drop _ _ E).
    + destruct (Py.split_once sep s) as [[a' b']|]; [|discriminate].
      intros [= <- <-]. rewrite append_cons. f_equal. by apply IH.
Qed.

Lemma split_once_complete sep s :
  Py.contains sep s = true -> exists a b, Py.split_once sep s = Some (a, b).
Proof.
  induction s as [|c s IH]; intros H.
  - rewrite contains_nil in H. rewrite split_once_nil, H. eauto.
  - rewrite contains_cons in H. rewrite split_once_cons.
    destruct (String.prefix sep (String c s)); [eauto|].
    simpl in H. destruct (IH H) as (a & b & ->). eauto.
Qed.

(** The separator does not occur before the place of the cut. *)
Lemma split_once_leftmost sep s a b :
  Py.split_once sep s = Some (a, b) ->
  forall n, n < Py.len a -> String.prefix sep (Py.drop n s) = false.
Proof.
  revert a b. induction s as [|c s IH]; intros a b.
  - rewrite split_once_nil. destruct (String.prefix sep ""); [|discriminate].
    intros [= <- <-] n Hn. simpl in Hn. lia.
  - rewrite split_once_cons.
    destruct (String.prefix sep (String c s)) eqn:E.
    + intros [= <- <-] n Hn. simpl in Hn. lia.
    + destruct (Py.split_once sep s) as [[a' b']|] eqn:E'; [|discriminate].
      intros [= <- <-] n Hn. destruct n as [|n]; [exact E|].
      simpl. apply (IH _ _ eq_refl). simpl in Hn. lia.
Qed.

Lemma prefix_app_self sep t : String.prefix sep (sep +:+ t) = true.
Proof.
  induction sep as [|x sep IH]; [by destruct t|].
  rewrite append_cons. cbn [String.prefix].
  by destruct (ascii_dec x x).
Qed.

Lemma drop_app_self sep t : Py.drop (Py.len sep) (sep +:+ t) = t.
Proof. induction sep as [|x sep IH]; [reflexivity | exact IH]. Qed.

(** Conversely, a string of the form [a sep b] in which [sep] does not
    start inside [a] is cut into [a] and [b]. *)
Lemma split_once_of_form sep a b :
  (forall n, n < Py.len a ->
     String.prefix sep (Py.drop n (a +:+ sep +:+ b)) = false) ->
  Py.split_once sep (a +:+ sep +:+ b) = Some (a, b).
Proof.
  induction a as [|c a IH]; intros H.
  - change ("" +:+ sep +:+ b) with (sep +:+ b).
    destruct (sep +:+ b) as [|c s] eqn:E.
    + rewrite split_once_nil, <- E, prefix_app_self.
      by rewrite drop_app_self.
    + rewrite split_once_cons, <- E, prefix_app_self.
      by rewrite drop_app_self.
  - assert (H0 : String.prefix sep (String c a +:+ sep +:+ b) = false).
    { apply (H 0). simpl. lia. }
    rewrite append_cons in H0 |- *. rewrite split_once_cons, H0.
    rewrite IH; [done|]. intros n Hn. apply (H (S n)). simpl. lia.
Qed.

Lemma lstrip_shape s :
  Py.lstrip s = "" \/ stripped (Py.lstrip s).
Proof.
  induction s as [|c s IH]; cbn [Py.lstrip]; [by left|].
  destruct (Py.isspace c) eqn:E; [exact IH|].
  right. by exists c, s.
Qed.

Lemma rstrip_nonspace c s :
  Py.isspace c = false -> Py.rstrip (String c s) = String c (Py.rstrip s).
Proof. intros H. cbn [Py.rstrip]. by rewrite H. Qed.

Lemma strip_shape s : Py.strip s = "" \/ stripped (Py.strip s).
Proof.
  unfold Py.strip. destruct (lstrip_shape s) as [->|(c & r & -> & Hc)].
  - by left.
  - right. rewrite (rstrip_nonspace _ _ Hc). by exists c, (Py.rstrip r).
Qed.

Lemma strip_stripped_nonempty line :
  stripped line -> Py.is_empty (Py.strip line) = false.
Proof.
  intros (c & r & -> & Hc). unfold Py.strip. cbn [Py.lstrip].
  by rewrite Hc, (rstrip_nonspace _ _ Hc).
Qed.

Lemma lines_of_stripped text : Forall stripped (lines_of text).
Proof.
  unfold lines_of. apply Forall_forall. intros l Hl.
  apply list_elem_of_In, in_map_iff in Hl as (l0 & <- & Hin).
  apply filter_In in Hin as [_ Hnb]. unfold nonblank in Hnb.
  destruct (strip_shape l0) as [E|E]; [|exact E].
  rewrite E in Hnb. discriminate.
Qed.

Lemma split_ws_acc_lstrip s :
  Py.split_ws_acc "" (Py.lstrip s) = Py.split_ws_acc "" s.
Proof.
  induction s as [|c s IH]; cbn [Py.lstrip Py.split_ws_acc]; [reflexivity|].
  destruct (Py.isspace c) eqn:E; [exact IH|].
  cbn [Py.split_ws_acc]. by rewrite E.
Qed.

Lemma split_ws_acc_rstrip s : forall acc,
  Py.split_ws_acc acc (Py.rstrip s) = Py.split_ws_acc acc s.
Proof.
  induction s as [|c s IH]; intros acc; [reflexivity|].
  cbn [Py.rstrip Py.split_ws_acc].
  destruct (Py.isspace c) eqn:E; cbn [andb].
  - destruct (Py.is_empty (Py.rstrip s)) eqn:Er.
    + destruct (Py.rstrip s) eqn:Es; [|discriminate].
      pose proof (IH "") as IH0. cbn in IH0.
      cbn [Py.split_ws_acc]. destruct (Py.is_empty acc); by rewrite <- IH0.
    + cbn [Py.split_ws_acc]. rewrite E.
      destruct (Py.is_empty acc); by rewrite IH.
  - cbn [Py.split_ws_acc]. rewrite E. apply IH.
Qed.

Lemma split_ws_strip s : Py.split_ws (Py.strip s) = Py.split_ws s.
Proof.
  unfold Py.split_ws, Py.strip.
  by rewrite split_ws_acc_rstrip, split_ws_acc_lstrip.
Qed.

End StringFacts.

(** ** Facts about the parser loop *)

Section ParserFacts.

Implicit Types (d : gmap string pyval) (line : string).

Ltac split_cases :=
  repeat match goal with
         | |- context [match ?x with _ => _ end] => destruct x eqn:?
         end.

Lemma parse_line_role_at_company d line X Y :
  is_role_at_company line = true ->
  Py.split_once " at " line = Some (X, Y) ->
  parse_line d line
  = <["current_company" := PStr (Py.strip Y)]>
      (<["current_role" := PStr (Py.strip X)]> d).
Proof.
  intros H1 H2. unfold parse_line. rewrite H1.
  cbn [Py.split_max]. by rewrite H2.
Qed.

(** The loop writes three keys only. *)
Lemma parse_line_other d line k :
  k ≠ "current_role" -> k ≠ "current_company" -> k ≠ "batch" ->
  parse_line d line !! k = d !! k.
Proof.
  intros. unfold parse_line. split_cases; by rewrite ?lookup_insert_ne.
Qed.

Lemma parse_line_company d line :
  is_role_at_company line = false ->
  parse_line d line !! "current_company" = d !! "current_company".
Proof.
  intros H. unfold parse_line. rewrite H.
  split_cases; by rewrite ?lookup_insert_ne.
Qed.

Lemma parse_line_keep_role d line :
  is_role_at_company line = false ->
  truthy (d !! "current_role") = true ->
  parse_line d line !! "current_role" = d !! "current_role".
Proof.
  intros H Hr. unfold parse_line. rewrite H, Hr. cbn [negb andb].
  split_cases; by rewrite ?lookup_insert_ne.
Qed.

Lemma parse_line_keep_batch d line :
  truthy (d !! "batch") = true ->
  parse_line d line !! "batch" = d !! "batch".
Proof.
  intros Hb. unfold parse_line. rewrite Hb. cbn [negb].
  split_cases; by rewrite ?lookup_insert_ne.
Qed.

Lemma parse_line_skip_batch d line :
  batch_line line = false ->
  parse_line d line !! "batch" = d !! "batch".
Proof.
  unfold batch_line, has_batch, parse_line. intros H.
  destruct (is_role_at_company line); cbn [negb andb] in H.
  - split_cases; by rewrite ?lookup_insert_ne.
  - destruct (re_search_batch line); [discriminate|].
    split_cases; by rewrite ?lookup_insert_ne.
Qed.

Lemma parse_line_take_batch d line m :
  is_role_at_company line = false ->
  re_search_batch line = Some m ->
  truthy (d !! "batch") = false ->
  parse_line d line = <["batch" := PStr m]> d.
Proof.
  intros H1 H2 H3. unfold parse_line. by rewrite H1, H2, H3.
Qed.

Lemma parse_line_take_role d line :
  is_role_at_company line = false ->
  (re_search_batch line = None \/ truthy (d !! "batch") = true) ->
  truthy (d !! "current_role") = false ->
  has_indicator line = true ->
  parse_line d line = <["current_role" := PStr line]> d.
Proof.
  intros H1 H2 H3 H4. unfold parse_line. rewrite H1, H3, H4. cbn [negb andb].
  destruct H2 as [->| ->]; [done|]. by destruct (re_search_batch line).
Qed.

Lemma parse_line_idle d line :
  is_role_at_company line = false ->
  (re_search_batch line = None \/ truthy (d !! "batch") = true) ->
  has_indicator line = false ->
  parse_line d line = d.
Proof.
  intros H1 H2 H4. unfold parse_line. rewrite H1, H4, andb_false_r.
  destruct H2 as [->| ->]; [done|]. by destruct (re_search_batch line).
Qed.

(** A batch code is never empty, nor is a line with a title keyword. *)
Lemma re_search_batch_nonempty line m :
  re_search_batch line = Some m -> Py.is_empty m = false.
Proof.
  induction line as [|c s IH]; [discriminate|].
  cbn [re_search_batch]. destruct (batch_here (String c s)) eqn:E.
  - intros [= <-]. unfold batch_here in E.
    destruct s as [|b [|c' s]]; try discriminate.
    destruct (_ && _); [|discriminate]. by injection E as <-.
  - exact IH.
Qed.

Lemma has_indicator_nonempty line :
  has_indicator line = true -> Py.is_empty line = false.
Proof. by destruct line. Qed.

Lemma fold_other rest : forall d k,
  k ≠ "current_role" -> k ≠ "current_company" -> k ≠ "batch" ->
  fold_left parse_line rest d !! k = d !! k.
Proof.
  induction rest as [|l rest IH]; intros d k ???; [done|].
  cbn [fold_left]. rewrite IH by done. by apply parse_line_other.
Qed.

(** Once a role is set, lines that are not "Role at Company" lines leave
    role and company alone. *)
Lemma fold_keep_role rest : forall d,
  Forall (fun l => is_role_at_company l = false) rest ->
  truthy (d !! "current_role") = true ->
  fold_left parse_line rest d !! "current_role" = d !! "current_role".
Proof.
  induction rest as [|l rest IH]; intros d Hall Hr; [done|].
  inversion Hall as [|? ? Hl Hrest]; subst. cbn [fold_left].
  rewrite IH; [by apply parse_line_keep_role | done |].
  by rewrite parse_line_keep_role.
Qed.

Lemma fold_company rest : forall d,
  Forall (fun l => is_role_at_company l = false) rest ->
  fold_left parse_line rest d !! "current_company"
  = d !! "current_company".
Proof.
  induction rest as [|l rest IH]; intros d Hall; [done|].
  inversion Hall as [|? ? Hl Hrest]; subst. cbn [fold_left].
  rewrite IH by done. by apply parse_line_company.
Qed.

Lemma fold_keep_batch rest : forall d,
  truthy (d !! "batch") = true ->
  fold_left parse_line rest d !! "batch" = d !! "batch".
Proof.
  induction rest as [|l rest IH]; intros d Hb; [done|].
  cbn [fold_left]. rewrite IH; [by apply parse_line_keep_batch|].
  by rewrite parse_line_keep_batch.
Qed.

(** With no batch yet, the batch is the code of the earliest line it can
    be taken from. *)
Lemma fold_batch rest : forall d,
  d !! "batch" = Some (PStr "") ->
  fold_left parse_line rest d !! "batch"
  = Some (PStr (batch_of_lines rest)).
Proof.
  induction rest as [|l rest IH]; intros d Hd; [done|].
  cbn [fold_left]. unfold batch_of_lines. cbn [List.find].
  destruct (batch_line l) eqn:Hl.
  - unfold batch_line, has_batch in Hl.
    apply andb_true_iff in Hl as [Hc Hb].
    apply negb_true_iff in Hc.
    destruct (re_search_batch l) as [m|] eqn:Hm; [|discriminate].
    rewrite (parse_line_take_batch d l m) by (by rewrite ?Hd).
    rewrite fold_keep_batch; rewrite lookup_insert_eq; [done|].
    cbn [truthy]. by rewrite (re_search_batch_nonempty _ _ Hm).
  - apply IH. by rewrite parse_line_skip_batch.
Qed.

(** With a batch set and no role yet, the role is the first line with a
    title keyword. *)
Lemma fold_role_after_batch rest : forall d,
  Forall (fun l => is_role_at_company l = false) rest ->
  truthy (d !! "batch") = true ->
  d !! "current_role" = Some (PStr "") ->
  fold_left parse_line rest d !! "current_role"
  = Some (PStr (first_indicator_line rest)).
Proof.
  induction rest as [|l rest IH]; intros d Hall Hb Hr; [done|].
  inversion Hall as [|? ? Hl Hrest]; subst. cbn [fold_left].
  unfold first_indicator_line. cbn [List.find].
  destruct (has_indicator l) eqn:Hi.
  - rewrite (parse_line_take_role d l) by (rewrite ?Hr; auto).
    rewrite fold_keep_role; rewrite ?lookup_insert_eq; [done|done|].
    cbn [truthy]. by rewrite (has_indicator_nonempty _ Hi).
  - rewrite (parse_line_idle d l) by auto. by apply IH.
Qed.

(** With neither set, the first line with a batch code sets the batch and
    is passed over for the role. *)
Lemma fold_role rest : forall d,
  Forall (fun l => is_role_at_company l = false) rest ->
  d !! "batch" = Some (PStr "") ->
  d !! "current_role" = Some (PStr "") ->
  fold_left parse_line rest d !! "current_role"
  = Some (PStr (first_indicator_line (without_batch_line rest))).
Proof.
  induction rest as [|l rest IH]; intros d Hall Hb Hr; [done|].
  inversion Hall as [|? ? Hl Hrest]; subst.
  cbn [fold_left without_batch_line]. unfold has_batch.
  destruct (re_search_batch l) as [m|] eqn:Hm.
  - rewrite (parse_line_take_batch d l m) by (by rewrite ?Hb).
    apply fold_role_after_batch; [done| |by rewrite lookup_insert_ne].
    rewrite lookup_insert_eq. cbn [truthy].
    by rewrite (re_search_batch_nonempty _ _ Hm).
  - unfold first_indicator_line. cbn [List.find].
    destruct (has_indicator l) eqn:Hi.
    + rewrite (parse_line_take_role d l) by (rewrite ?Hr; auto).
      rewrite fold_keep_role; rewrite ?lookup_insert_eq; [done|done|].
      cbn [truthy]. by rewrite (has_indicator_nonempty _ Hi).
    + rewrite (parse_line_idle d l) by auto. by apply IH.
Qed.

Lemma clean_empty : clean "" = "".
Proof. reflexivity. Qed.

Lemma clean_key_same d k s :
  d !! k = Some (PStr s) -> clean_key k d !! k = Some (PStr (clean s)).
Proof.
  intros H. unfold clean_key, str_at. rewrite H. cbn [truthy].
  destruct s; cbn [Py.is_empty negb]; [by rewrite H|].
  by rewrite lookup_insert_eq.
Qed.

Lemma clean_key_other d k k' :
  k ≠ k' -> clean_key k d !! k' = d !! k'.
Proof.
  intros H. unfold clean_key.
  destruct (truthy (d !! k)); by rewrite ?lookup_insert_ne.
Qed.

(** The part before [' at '] of a line of the loop is not blank. *)
Lemma role_part_nonblank line X Y :
  stripped line ->
  Py.split_once " at " line = Some (X, Y) ->
  Py.is_empty (Py.strip X) = false.
Proof.
  intros (c & r & -> & Hc). rewrite split_once_cons.
  destruct (String.prefix " at " (String c r)) eqn:E.
  - apply prefix_head in E as <-. discriminate.
  - destruct (Py.split_once " at " r) as [[a b]|]; [|discriminate].
    intros [= <- <-]. apply strip_stripped_nonempty. by exists c, a.
Qed.

(** The last "Role at Company" line after the name line decides role and
    company. *)
Lemma parse_lines_last_role_at_company name pre line post X Y :
  stripped line ->
  is_role_at_company line = true ->
  Py.split_once " at " line = Some (X, Y) ->
  Forall (fun l => is_role_at_company l = false) post ->
  parse_lines (name :: pre ++ line :: post)%list !! "current_role"
  = Some (PStr (clean (Py.strip X)))
  /\ parse_lines (name :: pre ++ line :: post)%list !! "current_company"
     = Some (PStr (clean (Py.strip Y))).
Proof.
  intros Hs Hl Hxy Hpost. unfold parse_lines.
  rewrite fold_left_app. cbn [fold_left].
  set (d := fold_left parse_line pre _).
  rewrite (parse_line_role_at_company d line X Y Hl Hxy).
  set (d' := <["current_company" := _]> _).
  assert (Hr : fold_left parse_line post d' !! "current_role"
               = Some (PStr (Py.strip X))).
  { rewrite fold_keep_role; subst d'.
    - by rewrite lookup_insert_ne, lookup_insert_eq.
    - done.
    - rewrite lookup_insert_ne, lookup_insert_eq by done. cbn [truthy].
      by rewrite (role_part_nonblank _ _ _ Hs Hxy). }
  assert (Hc : fold_left parse_line post d' !! "current_company"
               = Some (PStr (Py.strip Y))).
  { rewrite fold_company by done. subst d'. by rewrite lookup_insert_eq. }
  split.
  - rewrite clean_key_other by done. by apply clean_key_same.
  - apply clean_key_same. by rewrite clean_key_other.
Qed.

Lemma set_name_other line0 d k :
  k ≠ "first_name" -> k ≠ "last_name" -> set_name line0 d !! k = d !! k.
Proof.
  intros. unfold set_name. split_cases; by rewrite ?lookup_insert_ne.
Qed.

Lemma set_name_tokens line0 d t1 ts :
  d !! "last_name" = Some (PStr "") ->
  Py.split_ws line0 = t1 :: ts ->
  set_name line0 d !! "first_name" = Some (PStr t1)
  /\ set_name line0 d !! "last_name" = Some (PStr (Py.join " " ts)).
Proof.
  intros Hd Hw. unfold set_name. rewrite Hw. destruct ts as [|t2 ts].
  - by rewrite lookup_insert_eq, lookup_insert_ne.
  - by rewrite lookup_insert_ne, !lookup_insert_eq.
Qed.

Lemma find_filter {A} (P : A -> bool) xs x :
  List.find P xs = Some x -> exists rest, List.filter P xs = x :: rest.
Proof.
  induction xs as [|y xs IH]; [discriminate|]. cbn [List.find List.filter].
  destruct (P y); [intros [= <-]; eauto | exact IH].
Qed.

End ParserFacts.

(** ** The text parser: properties *)

Section ParserProperties.

Lemma has_indicator_app X t :
  has_indicator X = true -> has_indicator (X +:+ t) = true.
Proof.
  unfold has_indicator. rewrite !existsb_exists.
  intros (k & Hk & Hc). exists k. split; [done|]. by apply contains_app_l.
Qed.

Lemma split_once_contains sep s a b :
  Py.split_once sep s = Some (a, b) -> Py.contains sep s = true.
Proof.
  revert a b. induction s as [|c s IH]; intros a b.
  - rewrite split_once_nil, contains_nil. by destruct (String.prefix sep "").
  - rewrite split_once_cons, contains_cons.
    destruct (String.prefix sep (String c s)); [done|].
    destruct (Py.split_once sep s) as [[a' b']|]; [|done].
    intros _. by apply (IH a' b').
Qed.

Lemma empty_founder_info_key k :
  In k ["first_name"; "last_name"; "current_role"; "current_company";
        "batch"; "linkedin_url"] ->
  empty_founder_info !! k = Some (PStr "").
Proof.
  cbn [In]. intros H.
  repeat (destruct H as [<-|H]; [reflexivity|]). done.
Qed.

(** C5. The scenario of the specification: the three-line block of Andy
    Fang parses to first name Andy, last name Fang, role Co-founder,
    company DoorDash and batch S13. *)
Theorem parse_andy_fang :
  let founder_info :=
    parse_founder_text
      ("Andy Fang" +:+ nl +:+ "**Co-founder** at **DoorDash**" +:+ nl
       +:+ "S13") in
  founder_info !! "first_name" = Some (PStr "Andy")
  /\ founder_info !! "last_name" = Some (PStr "Fang")
  /\ founder_info !! "current_role" = Some (PStr "Co-founder")
  /\ founder_info !! "current_company" = Some (PStr "DoorDash")
  /\ founder_info !! "batch" = Some (PStr "S13").
Proof. vm_compute. repeat split. Qed.

(** C3. Let [line] be the first line of the block that is not blank, and
    [t1 :: ts] its whitespace-separated tokens. Then [first_name] is [t1]
    and [last_name] is [ts] joined by single spaces; with one token only,
    [ts] is empty and so is [last_name]. *)
Theorem name_from_first_line text line t1 ts :
  List.find nonblank (Py.split nl text) = Some line ->
  Py.split_ws line = t1 :: ts ->
  parse_founder_text text !! "first_name" = Some (PStr t1)
  /\ parse_founder_text text !! "last_name"
     = Some (PStr (Py.join " " ts)).
Proof.
  intros Hf Hw. unfold parse_founder_text, lines_of.
  destruct (find_filter _ _ _ Hf) as (rest & ->).
  cbn [List.map parse_lines].
  rewrite !clean_key_other, !fold_other by done.
  apply set_name_tokens; [by apply empty_founder_info_key; cbn; auto|].
  by rewrite split_ws_strip.
Qed.

Lemma name_from_first_line_witness :
  List.find nonblank (Py.split nl ("  " +:+ nl +:+ " Grace Brewster Hopper"))
  = Some " Grace Brewster Hopper"
  /\ parse_founder_text ("  " +:+ nl +:+ " Grace Brewster Hopper")
       !! "first_name" = Some (PStr "Grace")
  /\ parse_founder_text ("  " +:+ nl +:+ " Grace Brewster Hopper")
       !! "last_name" = Some (PStr "Brewster Hopper").
Proof.
  split; [reflexivity|].
  apply (name_from_first_line _ " Grace Brewster Hopper" "Grace"
           ["Brewster"; "Hopper"]); reflexivity.
Defined.

(** When the first line that is not empty holds a token at all, it is the
    first line that is not blank, so the reading of "non-empty" makes no
    difference to C3. *)
Lemma first_nonempty_line_with_token text line t1 ts :
  List.find (fun l => negb (Py.is_empty l)) (Py.split nl text) = Some line ->
  Py.split_ws line = t1 :: ts ->
  List.find nonblank (Py.split nl text) = Some line.
Proof.
  intros Hf Hw. induction (Py.split nl text) as [|l ls IH]; [done|].
  cbn [List.find] in *. destruct l as [|c l].
  - cbn in Hf |- *. by apply IH.
  - cbn [Py.is_empty negb] in Hf. injection Hf as <-.
    assert (Hnb : nonblank (String c l) = true); [|by rewrite Hnb].
    unfold nonblank. destruct (Py.strip (String c l)) eqn:E; [|done].
    rewrite <- split_ws_strip, E in Hw. discriminate.
Qed.

(** C1 (as stated) fails: the block whose only line is "CEO at Acme" has
    a line of the form X at Y with a title keyword in X, yet the line is
    read as the name and the role stays empty. *)
Lemma role_at_company_on_name_line :
  In ("CEO" +:+ " at " +:+ "Acme") (Py.split nl "CEO at Acme")
  /\ has_indicator "CEO" = true
  /\ parse_founder_text "CEO at Acme" !! "current_role" = Some (PStr "")
  /\ parse_founder_text "CEO at Acme" !! "first_name" = Some (PStr "CEO")
  /\ parse_founder_text "CEO at Acme" !! "current_role"
     ≠ Some (PStr (clean (Py.strip "CEO"))).
Proof. vm_compute. repeat split; auto; discriminate. Qed.

(** C1 (amended). If, among the non-blank lines after the first, a line
    cut at its first [" at "] gives X and Y, X holds a title keyword, and
    no later line is a "Role at Company" line, then [current_role] is X
    and [current_company] is Y, each stripped, with the markers removed
    and stripped again. *)
Theorem role_and_company_from_line text name pre line post X Y :
  lines_of text = (name :: pre ++ line :: post)%list ->
  Py.split_once " at " line = Some (X, Y) ->
  has_indicator X = true ->
  Forall (fun l => is_role_at_company l = false) post ->
  parse_founder_text text !! "current_role"
  = Some (PStr (clean (Py.strip X)))
  /\ parse_founder_text text !! "current_company"
     = Some (PStr (clean (Py.strip Y))).
Proof.
  intros Hl Hxy Hx Hpost. unfold parse_founder_text. rewrite Hl.
  apply parse_lines_last_role_at_company; [| |done|done].
  - pose proof (lines_of_stripped text) as Hs. rewrite Hl in Hs.
    apply Forall_cons in Hs as [_ Hs].
    apply Forall_app in Hs as [_ Hs]. by apply Forall_cons in Hs as [Hs _].
  - unfold is_role_at_company.
    rewrite (split_once_contains _ _ _ _ Hxy).
    rewrite (split_once_sound _ _ _ _ Hxy). by apply has_indicator_app.
Qed.

Lemma role_and_company_from_line_witness :
  parse_founder_text
    ("Ada Byron" +:+ nl +:+ "CTO at Engines" +:+ nl
     +:+ "**Founder ** at ** Analytical at Large" +:+ nl +:+ "W22")
    !! "current_role" = Some (PStr "Founder")
  /\ parse_founder_text
       ("Ada Byron" +:+ nl +:+ "CTO at Engines" +:+ nl
        +:+ "**Founder ** at ** Analytical at Large" +:+ nl +:+ "W22")
       !! "current_company" = Some (PStr "Analytical at Large").
Proof.
  apply (role_and_company_from_line _ "Ada Byron" ["CTO at Engines"]
           "**Founder ** at ** Analytical at Large" ["W22"]
           "**Founder **" "** Analytical at Large").
  - reflexivity.
  - reflexivity.
  - reflexivity.
  - repeat constructor.
Defined.

(** C10. When more than one line of the loop is a "Role at Company" line,
    role and company are those of the last one: X and Y of its cut at the
    first [" at "], cleaned. *)
Theorem last_role_at_company_line_wins text pre earlier line post X Y :
  lines_of text = (pre ++ line :: post)%list ->
  In earlier pre ->
  is_role_at_company earlier = true ->
  is_role_at_company line = true ->
  Forall (fun l => is_role_at_company l = false) post ->
  Py.split_once " at " line = Some (X, Y) ->
  parse_founder_text text !! "current_role"
  = Some (PStr (clean (Py.strip X)))
  /\ parse_founder_text text !! "current_company"
     = Some (PStr (clean (Py.strip Y))).
Proof.
  intros Hl Hin _ Hline Hpost Hxy. unfold parse_founder_text.
  pose proof (lines_of_stripped text) as Hs. rewrite Hl in Hs |- *.
  apply Forall_app in Hs as [_ Hs]. apply Forall_cons in Hs as [Hs _].
  destruct pre as [|name pre]; [destruct Hin|].
  by apply parse_lines_last_role_at_company.
Qed.

Lemma last_role_at_company_line_wins_witness :
  parse_founder_text
    ("Ada Byron" +:+ nl +:+ "CTO at Engines" +:+ nl
     +:+ "S21 Chief Poet at Large" +:+ nl +:+ "Director")
    !! "current_role" = Some (PStr "S21 Chief Poet")
  /\ parse_founder_text
       ("Ada Byron" +:+ nl +:+ "CTO at Engines" +:+ nl
        +:+ "S21 Chief Poet at Large" +:+ nl +:+ "Director")
       !! "current_company" = Some (PStr "Large").
Proof.
  apply (last_role_at_company_line_wins _ ["Ada Byron"; "CTO at Engines"]
           "CTO at Engines" "S21 Chief Poet at Large" ["Director"]
           "S21 Chief Poet" "Large").
  - reflexivity.
  - cbn. auto.
  - reflexivity.
  - reflexivity.
  - repeat constructor.
  - reflexivity.
Defined.

(** What [re_search_batch] finds is the match that starts leftmost in the
    line: an S, W, F or X followed by two digits, with no match starting
    further left. *)
Lemma batch_here_shape s m :
  batch_here s = Some m ->
  exists a b c r,
    s = String a (String b (String c r))
    /\ m = String a (String b (String c ""))
    /\ is_SWFX a = true /\ Py.isdigit b = true /\ Py.isdigit c = true.
Proof.
  unfold batch_here. destruct s as [|a [|b [|c r]]]; try discriminate.
  destruct (is_SWFX a) eqn:Ha; [|discriminate].
  destruct (Py.isdigit b) eqn:Hb; [|discriminate].
  destruct (Py.isdigit c) eqn:Hc; [|discriminate].
  intros [= <-]. by exists a, b, c, r.
Qed.

Lemma re_search_batch_leftmost line m :
  re_search_batch line = Some m ->
  exists n,
    batch_here (Py.drop n line) = Some m
    /\ forall k, k < n -> batch_here (Py.drop k line) = None.
Proof.
  induction line as [|c s IH]; [discriminate|].
  cbn [re_search_batch]. destruct (batch_here (String c s)) eqn:E.
  - intros [= <-]. exists 0. split; [done|]. intros k Hk. lia.
  - intros H. destruct (IH H) as (n & Hn & Hleft). exists (S n).
    split; [done|]. intros [|k] Hk; [done|]. apply Hleft. lia.
Qed.

Lemma re_search_batch_none line :
  re_search_batch line = None ->
  forall n, batch_here (Py.drop n line) = None.
Proof.
  induction line as [|c s IH]; intros H n.
  - by destruct n.
  - cbn [re_search_batch] in H.
    destruct (batch_here (String c s)) eqn:E; [discriminate|].
    destruct n as [|n]; [done|]. by apply IH.
Qed.

(** C2 (as stated) fails: in this block the earliest line with a batch
    code is the "Role at Company" line, whose code S21 is passed over;
    the batch is taken from the line after it. *)
Lemma batch_on_role_at_company_line :
  first_batch_in_any_line
    ("Jane Doe" +:+ nl +:+ "CEO at S21 Labs" +:+ nl +:+ "W22") = "S21"
  /\ parse_founder_text
       ("Jane Doe" +:+ nl +:+ "CEO at S21 Labs" +:+ nl +:+ "W22")
       !! "batch" = Some (PStr "W22")
  /\ parse_founder_text
       ("Jane Doe" +:+ nl +:+ "CEO at S21 Labs" +:+ nl +:+ "W22")
       !! "batch"
     ≠ Some (PStr (first_batch_in_any_line
                     ("Jane Doe" +:+ nl +:+ "CEO at S21 Labs" +:+ nl
                      +:+ "W22"))).
Proof. vm_compute. repeat split; auto; discriminate. Qed.

(** C2 (amended). The batch is the leftmost code of the earliest line
    that holds one among the non-blank lines after the first that are not
    "Role at Company" lines, and the empty string when there is no such
    line. *)
Theorem batch_from_first_batch_line text :
  parse_founder_text text !! "batch"
  = Some (PStr (batch_of_lines (List.tl (lines_of text)))).
Proof.
  unfold parse_founder_text. destruct (lines_of text) as [|name rest].
  - reflexivity.
  - cbn [parse_lines List.tl]. rewrite !clean_key_other by done.
    apply fold_batch. rewrite set_name_other by done.
    apply empty_founder_info_key. cbn. auto 10.
Qed.

(** C4 (as stated) fails: no line of this block is a "Role at Company"
    line and its first line with a title keyword is "S21 Founder", but
    that line gives the batch and the role is taken from the next one. *)
Lemma bare_role_on_batch_line :
  forallb (fun l => negb (is_role_at_company l))
    (Py.split nl ("Jane Doe" +:+ nl +:+ "S21 Founder" +:+ nl +:+ "CEO"))
  = true
  /\ first_keyword_line_unmarked
       ("Jane Doe" +:+ nl +:+ "S21 Founder" +:+ nl +:+ "CEO")
     = "S21 Founder"
  /\ parse_founder_text
       ("Jane Doe" +:+ nl +:+ "S21 Founder" +:+ nl +:+ "CEO")
       !! "current_role" = Some (PStr "CEO")
  /\ parse_founder_text
       ("Jane Doe" +:+ nl +:+ "S21 Founder" +:+ nl +:+ "CEO")
       !! "current_role"
     ≠ Some (PStr (first_keyword_line_unmarked
                     ("Jane Doe" +:+ nl +:+ "S21 Founder" +:+ nl
                      +:+ "CEO"))).
Proof. vm_compute. repeat split; auto; discriminate. Qed.

(** C4 (amended). When no non-blank line after the first is a "Role at
    Company" line, [current_role] is the first line with a title keyword
    among those lines, the line the batch code is taken from left out;
    the markers are removed from it and it is stripped; it is empty when
    there is no such line. [current_company] is empty. *)
Theorem bare_role_without_role_at_company text name rest :
  lines_of text = name :: rest ->
  Forall (fun l => is_role_at_company l = false) rest ->
  parse_founder_text text !! "current_role"
  = Some (PStr (bare_role_of_lines rest))
  /\ parse_founder_text text !! "current_company" = Some (PStr "").
Proof.
  intros Hl Hrest. unfold parse_founder_text. rewrite Hl.
  cbn [parse_lines].
  assert (Hk : forall k,
    In k ["current_role"; "current_company"; "batch"] ->
    set_name name empty_founder_info !! k = Some (PStr "")).
  { intros k Hk. cbn [In] in Hk. rewrite set_name_other.
    - apply empty_founder_info_key. cbn [In]. intuition.
    - intuition; subst; discriminate.
    - intuition; subst; discriminate. }
  split.
  - rewrite clean_key_other by done. apply clean_key_same.
    apply fold_role; [done| |]; apply Hk; cbn; auto.
  - transitivity (Some (PStr (clean ""))); [|by rewrite clean_empty].
    apply clean_key_same.
    rewrite clean_key_other by done. rewrite fold_company by done.
    apply Hk. cbn; auto.
Qed.

Lemma bare_role_without_role_at_company_witness :
  parse_founder_text
    ("Jane Doe" +:+ nl +:+ "S21 Founder" +:+ nl +:+ "** Chief ** Poet"
     +:+ nl +:+ "CEO")
    !! "current_role" = Some (PStr "Chief  Poet")
  /\ parse_founder_text
       ("Jane Doe" +:+ nl +:+ "S21 Founder" +:+ nl +:+ "** Chief ** Poet"
        +:+ nl +:+ "CEO")
       !! "current_company" = Some (PStr "").
Proof.
  apply (bare_role_without_role_at_company _ "Jane Doe"
           ["S21 Founder"; "** Chief ** Poet"; "CEO"]).
  - reflexivity.
  - repeat constructor.
Defined.

End ParserProperties.

(** ** The profile link resolver: properties *)

Section ResolverProperties.

(** The categorizing loop yields the two classes in discovery order. *)
Lemma categorize_fold elements : forall personal company,
  fold_left categorize elements (personal, company)
  = ((personal ++ List.filter is_personal (linkedin_links elements))%list,
     (company ++ List.filter is_company (linkedin_links elements))%list).
Proof.
  induction elements as [|e elements IH]; intros personal company.
  - cbn. by rewrite !app_nil_r.
  - cbn [fold_left]. unfold linkedin_links. cbn [List.flat_map].
    fold (linkedin_links elements). rewrite !List.filter_app.
    destruct e as [url|]; cbn [categorize]; [|by rewrite IH].
    destruct (Py.is_empty url); cbn [negb andb orb fst snd];
      [by rewrite IH|].
    destruct (Py.contains "linkedin.com" url); cbn [negb andb orb];
      [|by rewrite IH].
    unfold is_personal, is_company. cbn [List.filter].
    destruct (Py.contains "/in/" url); cbn [negb andb orb app];
      [by rewrite IH, <- !app_assoc|].
    destruct (Py.contains "/company/" url); cbn [negb andb orb app];
      [by rewrite IH, <- !app_assoc|].
    destruct (Py.contains "/pub/" url); cbn [negb andb orb app];
      by rewrite IH, <- ?app_assoc.
Qed.

Lemma linkedin_links_nonempty elements url :
  In url (linkedin_links elements) -> Py.is_empty url = false.
Proof.
  unfold linkedin_links. rewrite in_flat_map. intros ([u|] & _ & Hin).
  - destruct (Py.is_empty u) eqn:E; cbn in Hin; [done|].
    destruct (Py.contains "linkedin.com" u); cbn in Hin; [|done].
    by destruct Hin as [<-|[]].
  - destruct Hin.
Qed.

(** C6 (as stated) fails: with the classes as the specification words
    them, the second link of this page is personal (it holds [/pub/]) and
    would be selected; the resolver files both links as organizational
    and returns the first. *)
Lemma company_link_with_pub_segment :
  select_link is_personal_as_specified is_company_as_specified
    "https://www.ycombinator.com/founders/1-ann-lee"
    [Some "https://www.linkedin.com/company/acme";
     Some "https://www.linkedin.com/company/acme/pub/staff"]
  = Some "https://www.linkedin.com/company/acme/pub/staff"
  /\ extract_linkedin_url
       "https://www.ycombinator.com/founders/1-ann-lee"
       (Loaded [Some "https://www.linkedin.com/company/acme";
                Some "https://www.linkedin.com/company/acme/pub/staff"])
     = Some "https://www.linkedin.com/company/acme".
Proof. vm_compute. split; reflexivity. Qed.

(** C6 (amended). For a profile page that loaded, with a link holding
    [/company/] and no [/in/] counted as organizational even when it
    holds [/pub/], the resolver returns the first personal link in
    discovery order whose token holds a name fragment longer than two
    characters of the profile slug; else the first personal link; else
    the first organizational link; else none. *)
Theorem extract_linkedin_url_selects profile_url elements :
  Py.is_empty profile_url = false ->
  extract_linkedin_url profile_url (Loaded elements)
  = select_link is_personal is_company profile_url elements.
Proof.
  intros Hp. unfold extract_linkedin_url, select_link. rewrite Hp.
  rewrite categorize_fold. cbn [app].
  unfold best_match.
  destruct (List.find _ (List.filter is_personal _)) as [url|] eqn:Hf.
  - apply find_some in Hf as [Hin _].
    assert (Hne : Py.is_empty url = false).
    { apply filter_In in Hin as [Hin _].
      by apply linkedin_links_nonempty in Hin. }
    destruct (List.filter is_personal _); [destruct Hin|].
    cbn [or_first]. by rewrite Hne.
  - by destruct (List.filter is_personal _).
Qed.

Lemma extract_linkedin_url_selects_witness :
  extract_linkedin_url "https://www.ycombinator.com/founders/38677-andy-fang"
    (Loaded [Some "https://www.linkedin.com/company/doordash";
             None;
             Some "https://www.linkedin.com/in/someone-else/";
             Some "https://www.linkedin.com/in/fangsterr/"])
  = Some "https://www.linkedin.com/in/fangsterr/".
Proof.
  rewrite (extract_linkedin_url_selects
             "https://www.ycombinator.com/founders/38677-andy-fang");
    reflexivity.
Defined.

End ResolverProperties.

(** ** The exporter: properties *)

Section ExporterProperties.

Lemma row_of_fields founder :
  row_of founder = List.map (str_at founder) columns.
Proof.
  unfold row_of. apply map_ext. intros col. unfold str_at.
  by destruct (founder !! col) as [[|s]|].
Qed.

(** C7. With no records the file system is left as it was. With N >= 1
    records the file holds the header row of the seven columns in their
    fixed order, then N rows in record order; row i holds, column by
    column, the string the record has there, and the empty string where
    the record has no such key (or has [None]). *)
Theorem save_to_csv_writes filename fs founder data :
  save_to_csv [] filename fs = fs
  /\ exists rows,
       save_to_csv (founder :: data) filename fs !! filename
       = Some (columns :: rows)
       /\ length rows = length (founder :: data)
       /\ (forall i f, (founder :: data) !! i = Some f ->
             rows !! i = Some (List.map (str_at f) columns))
       /\ columns
          = ["first_name"; "last_name"; "current_role"; "current_company";
             "batch"; "linkedin_url"; "profile_url"].
Proof.
  split; [reflexivity|].
  exists (List.map row_of (founder :: data)). unfold save_to_csv.
  rewrite lookup_insert_eq. split; [done|]. split.
  - by rewrite length_map.
  - split; [|reflexivity]. intros i f Hi.
    change (List.map row_of) with (fmap (M:=list) row_of).
    by rewrite list_lookup_fmap, Hi, <- row_of_fields.
Qed.

(** Other files are not touched. *)
Lemma save_to_csv_other data filename other fs :
  filename ≠ other ->
  save_to_csv data filename fs !! other = fs !! other.
Proof.
  intros H. destruct data; [done|]. unfold save_to_csv.
  by rewrite lookup_insert_ne.
Qed.

End ExporterProperties.

(** ** The exhaustive loader: properties *)

Section LoaderProperties.

(** A pass that finds the height unchanged: the counter is 1 after an
    increase of the entry count, and two more than before otherwise. *)
Lemma scroll_body_same_height h c st :
  last_height st = h ->
  scroll_body (h, c) st
  = let loaded :=
      if founders_loaded st <? c then c else founders_loaded st in
    let count :=
      if founders_loaded st <? c then 1 else no_change_count st + 2 in
    if 3 <=? count
    then inl (mk_scroll h loaded count)
    else inr (mk_scroll h loaded count).
Proof.
  intros <-. unfold scroll_body. rewrite Z.eqb_refl.
  destruct (founders_loaded st <? c); [reflexivity|].
  cbv zeta. by replace (no_change_count st + 1 + 1)
              with (no_change_count st + 2) by lia.
Qed.

(** C8. On a page that never changes (height [h], [c] entries at every
    pass) the loop stops at its second pass: the stall counter goes up
    twice in a pass without growth, once for the entry count and once for
    the height, so it passes 3 after two such passes, not three. *)
Theorem static_page_stops_after_two_passes fuel h c :
  scroll_to_load_all_founders (2 + fuel) h (fun _ => (h, c))
  = Some (2, mk_scroll h c (if c =? 0 then 4 else 3)).
Proof.
  unfold scroll_to_load_all_founders. cbn [Nat.add scroll_loop].
  rewrite scroll_body_same_height by reflexivity.
  cbn [founders_loaded no_change_count]. destruct c as [|c].
  - cbv zeta. cbn [Nat.ltb Nat.leb Nat.add].
    by rewrite scroll_body_same_height.
  - cbv zeta. cbn [Nat.ltb Nat.leb Nat.add].
    rewrite scroll_body_same_height by reflexivity.
    cbn [founders_loaded no_change_count]. by rewrite Nat.ltb_irrefl.
Qed.

Lemma scroll_body_continue obs st st' :
  scroll_body obs st = inr st' -> last_height st' = fst obs.
Proof.
  unfold scroll_body. destruct obs as [new_height current_founders].
  destruct (founders_loaded st <? current_founders);
    destruct (new_height =? last_height st)%Z;
    repeat match goal with
           | |- context [if ?b then _ else _] => destruct b
           end; intros [= <-]; reflexivity.
Qed.

Section Stable.

Variable page : nat -> Z * nat.
Variable k : nat.
Hypothesis stable : forall i, k <= i -> page i = page k.

(** From a pass that sees the stable page with the stable height as the
    last height, the loop breaks within two passes. *)
Lemma scroll_loop_stable fuel i st :
  k <= i -> last_height st = fst (page k) ->
  exists n st',
    scroll_loop (2 + fuel) page i st = Some (n, st') /\ n <= i + 2.
Proof.
  intros Hi Hh. cbn [Nat.add scroll_loop].
  rewrite (stable i Hi), (stable (S i)) by lia.
  destruct (page k) as [H C] eqn:Hp. cbn [fst] in Hh.
  rewrite scroll_body_same_height by done. cbv zeta.
  destruct (founders_loaded st <? C) eqn:Hlt.
  - cbn [Nat.leb]. rewrite scroll_body_same_height by done.
    cbn [founders_loaded no_change_count]. rewrite Nat.ltb_irrefl.
    cbn. eexists _, _. split; [reflexivity|lia].
  - destruct (3 <=? no_change_count st + 2) eqn:Hc.
    + eexists _, _. split; [reflexivity|lia].
    + rewrite scroll_body_same_height by done.
      cbn [founders_loaded no_change_count]. rewrite Hlt.
      apply Nat.leb_gt in Hc.
      replace (no_change_count st) with 0 by lia. cbn.
      eexists _, _. split; [reflexivity|lia].
Qed.

Lemma scroll_loop_reaches_stable j : forall i st,
  i + j = S k ->
  (k < i -> last_height st = fst (page k)) ->
  exists n st',
    scroll_loop (j + 2) page i st = Some (n, st') /\ n <= k + 3.
Proof.
  induction j as [|j IH]; intros i st Hij Hh.
  - destruct (scroll_loop_stable 0 i st) as (n & st' & Hn & Hle);
      [lia | apply Hh; lia |].
    exists n, st'. split; [exact Hn | lia].
  - cbn [Nat.add scroll_loop].
    destruct (scroll_body (page i) st) as [st'|st'] eqn:Hb.
    + exists (S i), st'. split; [reflexivity | lia].
    + apply IH; [lia|]. intros Hk.
      rewrite (scroll_body_continue _ _ _ Hb).
      f_equal. apply stable. lia.
Qed.

(** On a page whose height and entry count stop changing after [k]
    passes, the loop ends within [k + 3] passes. *)
Lemma scroll_terminates_on_stable_page initial_height :
  exists n st,
    scroll_to_load_all_founders (k + 3) initial_height page = Some (n, st)
    /\ n <= k + 3.
Proof.
  unfold scroll_to_load_all_founders.
  destruct (scroll_loop_reaches_stable (S k) 0
              (mk_scroll initial_height 0 0)) as (n & st & Hn & Hle);
    [lia | lia |].
  exists n, st. split; [|exact Hle].
  rewrite <- Hn. f_equal. lia.
Qed.

End Stable.

(** A page that shows one more entry at every pass and keeps its height
    is never left: each pass resets the counter, then raises it to 1. *)
Lemma scroll_loop_growing_page fuel : forall i h loaded count,
  loaded <= i -> count <= 1 ->
  scroll_loop fuel (fun i => (h, S i)) i (mk_scroll h loaded count) = None.
Proof.
  induction fuel as [|fuel IH]; intros i h loaded count Hl Hc; [done|].
  cbn [scroll_loop]. rewrite scroll_body_same_height by done.
  cbn [founders_loaded no_change_count].
  destruct (loaded <? S i) eqn:E; [|apply Nat.ltb_ge in E; lia].
  cbn. apply IH; lia.
Qed.

End LoaderProperties.

(** ** The records handed to the exporter: properties *)

Section RecordProperties.

Implicit Types (d : gmap string pyval).

Lemma is_str_insert d k k' s :
  is_str d k -> is_str (<[k' := PStr s]> d) k.
Proof.
  intros [v Hv]. unfold is_str. destruct (decide (k' = k)) as [->|Hne].
  - exists s. by rewrite lookup_insert_eq.
  - exists v. by rewrite lookup_insert_ne.
Qed.

Lemma parse_line_is_str d line k :
  is_str d k -> is_str (parse_line d line) k.
Proof.
  intros H. unfold parse_line.
  repeat match goal with
         | |- context [match ?x with _ => _ end] => destruct x
         end; repeat apply is_str_insert; exact H.
Qed.

Lemma fold_is_str rest : forall d k,
  is_str d k -> is_str (fold_left parse_line rest d) k.
Proof.
  induction rest as [|l rest IH]; intros d k H; [done|].
  cbn [fold_left]. by apply IH, parse_line_is_str.
Qed.

Lemma set_name_is_str line0 d k :
  is_str d k -> is_str (set_name line0 d) k.
Proof.
  intros H. unfold set_name.
  repeat match goal with
         | |- context [match ?x with _ => _ end] => destruct x
         end; repeat apply is_str_insert; exact H.
Qed.

Lemma clean_key_is_str d k k' :
  is_str d k -> is_str (clean_key k' d) k.
Proof.
  intros H. unfold clean_key.
  destruct (truthy (d !! k')); [by apply is_str_insert | exact H].
Qed.

(** The parser gives a string under each of its six keys. *)
Lemma parse_founder_text_is_str text k :
  In k parser_keys -> is_str (parse_founder_text text) k.
Proof.
  intros Hk.
  assert (He : is_str empty_founder_info k).
  { exists "". by apply empty_founder_info_key. }
  unfold parse_founder_text, parse_lines.
  destruct (lines_of text) as [|line0 rest]; [exact He|].
  by apply clean_key_is_str, clean_key_is_str, fold_is_str,
    set_name_is_str.
Qed.

Lemma resolve_founder_is_str page d k :
  is_str d k -> is_str (resolve_founder page d) k.
Proof.
  intros H. unfold resolve_founder.
  destruct (truthy (d !! "profile_url")); [by apply is_str_insert|done].
Qed.

Lemma resolve_founder_profile_url page d :
  resolve_founder page d !! "profile_url" = d !! "profile_url".
Proof.
  unfold resolve_founder.
  destruct (truthy (d !! "profile_url")); by rewrite ?lookup_insert_ne.
Qed.

(** C9 (as stated) fails: an entry element without an [href] attribute
    gives a record whose [profile_url] is [None], not a string. *)
Lemma record_of_element_without_href :
  length (scrape_founders (Session [Elem None "Ada Byron"] [])
            (fun _ _ => LoadFailed)) = 1
  /\ List.hd ∅ (scrape_founders (Session [Elem None "Ada Byron"] [])
                  (fun _ _ => LoadFailed)) !! "profile_url"
     = Some PNone
  /\ ~ is_str (List.hd ∅ (scrape_founders
                            (Session [Elem None "Ada Byron"] [])
                            (fun _ _ => LoadFailed))) "profile_url".
Proof.
  assert (H : List.hd ∅ (scrape_founders (Session [Elem None "Ada Byron"] [])
                            (fun _ _ => LoadFailed)) !! "profile_url"
              = Some PNone) by (vm_compute; reflexivity).
  split; [reflexivity|]. split; [exact H|].
  intros [s Hs]. rewrite H in Hs. discriminate.
Qed.

(** The six keys of the parser hold strings in every record the main
    routine returns. *)
Lemma scrape_founders_parser_keys s web founder :
  In founder (scrape_founders s web) ->
  forall k, In k parser_keys -> is_str founder k.
Proof.
  destruct s as [|primary fallback]; [intros []|].
  cbn [scrape_founders]. intros Hin.
  apply list_elem_of_In, elem_of_lookup_imap in Hin
    as (i & d & -> & Hd).
  apply list_elem_of_lookup_2, list_elem_of_In in Hd.
  unfold extract_founder_overview_data in Hd.
  apply in_flat_map in Hd as (el & _ & Hel).
  destruct el as [|href text]; [destruct Hel|].
  destruct Hel as [<-|[]].
  intros k Hk. apply resolve_founder_is_str.
  destruct (parse_founder_text_is_str (Py.strip text) k Hk) as [v Hv].
  exists v. rewrite lookup_insert_ne; [exact Hv|].
  cbn [In parser_keys] in Hk. intuition; subst; discriminate.
Qed.

End RecordProperties.

(** ** The text parser: shape of the record *)

Section ParserRecordShape.

Implicit Types (d : gmap string pyval).

Lemma all_chars_app P a b :
  all_chars P (a +:+ b) = all_chars P a && all_chars P b.
Proof.
  induction a as [|c a IH]; [reflexivity|].
  rewrite append_cons. cbn [all_chars]. by rewrite IH, andb_assoc.
Qed.

Lemma split_max_all_chars P sep n : forall s,
  all_chars P s = true ->
  Forall (fun piece => all_chars P piece = true) (Py.split_max n sep s).
Proof.
  induction n as [|n IH]; intros s Hs; cbn [Py.split_max].
  - by constructor.
  - destruct (Py.split_once sep s) as [[a b]|] eqn:E; [|by constructor].
    rewrite (split_once_sound _ _ _ _ E), !all_chars_app in Hs.
    apply andb_true_iff in Hs as [Ha Hb].
    apply andb_true_iff in Hb as [_ Hb].
    constructor; [exact Ha | by apply IH].
Qed.

Lemma lstrip_all_space s :
  all_chars Py.isspace s = true -> Py.lstrip s = "".
Proof.
  induction s as [|c s IH]; [done|]. cbn [all_chars Py.lstrip].
  intros H. apply andb_true_iff in H as [-> H]. by apply IH.
Qed.

Lemma lines_of_blank text :
  all_chars Py.isspace text = true -> lines_of text = [].
Proof.
  intros H. unfold lines_of, Py.split.
  pose proof (split_max_all_chars Py.isspace nl (Py.len text) text H) as Hall.
  induction Hall as [|piece pieces Hp _ IH]; [reflexivity|].
  cbn [List.filter]. unfold nonblank at 1, Py.strip.
  by rewrite (lstrip_all_space _ Hp).
Qed.

(** A text without a character other than whitespace, the empty text
    included, parses to the record of six empty strings. *)
Theorem parse_blank_text text :
  all_chars Py.isspace text = true ->
  parse_founder_text text = empty_founder_info.
Proof.
  intros H. unfold parse_founder_text. by rewrite (lines_of_blank _ H).
Qed.

Lemma parse_blank_text_witness :
  parse_founder_text ("  " +:+ nl +:+ nl +:+ " ") = empty_founder_info.
Proof. apply parse_blank_text. reflexivity. Defined.

Lemma insert_keeps_dom d k s :
  is_str d k -> dom (<[k := PStr s]> d) = dom d.
Proof.
  intros [v Hv]. rewrite dom_insert_L.
  apply subseteq_union_1_L, singleton_subseteq_l.
  by apply elem_of_dom_2 in Hv.
Qed.

Lemma parse_line_dom d line :
  is_str d "current_role" -> is_str d "current_company" ->
  is_str d "batch" ->
  dom (parse_line d line) = dom d.
Proof.
  intros Hr Hc Hb. unfold parse_line.
  repeat match goal with
         | |- context [match ?x with _ => _ end] => destruct x
         end;
    rewrite ?insert_keeps_dom; auto using is_str_insert.
Qed.

Lemma fold_dom rest : forall d,
  is_str d "current_role" -> is_str d "current_company" ->
  is_str d "batch" ->
  dom (fold_left parse_line rest d) = dom d.
Proof.
  induction rest as [|l rest IH]; intros d Hr Hc Hb; [done|].
  cbn [fold_left]. rewrite IH by (by apply parse_line_is_str).
  by apply parse_line_dom.
Qed.

Lemma set_name_dom line0 d :
  is_str d "first_name" -> is_str d "last_name" ->
  dom (set_name line0 d) = dom d.
Proof.
  intros Hf Hl. unfold set_name.
  repeat match goal with
         | |- context [match ?x with _ => _ end] => destruct x
         end;
    rewrite ?insert_keeps_dom; auto using is_str_insert.
Qed.

Lemma clean_key_dom d k :
  is_str d k -> dom (clean_key k d) = dom d.
Proof.
  intros H. unfold clean_key.
  destruct (truthy (d !! k)); [by apply insert_keeps_dom | done].
Qed.

Lemma empty_founder_info_is_str k :
  In k parser_keys -> is_str empty_founder_info k.
Proof. intros H. exists "". by apply empty_founder_info_key. Qed.

Lemma parse_lines_dom lines :
  dom (parse_lines lines) = dom empty_founder_info.
Proof.
  assert (He : forall k, In k parser_keys -> is_str empty_founder_info k)
    by apply empty_founder_info_is_str.
  destruct lines as [|line0 rest]; [done|]. cbn [parse_lines].
  rewrite !clean_key_dom, fold_dom, set_name_dom;
    repeat first
      [ apply clean_key_is_str | apply fold_is_str | apply set_name_is_str ];
    try (apply He; cbn; auto 10); done.
Qed.

(** The record of the parser has the six keys of [founder_info] and no
    other: no [profile_url] in particular, whatever the text. *)
Theorem parse_founder_text_keys text k :
  is_Some (parse_founder_text text !! k) <-> In k parser_keys.
Proof.
  rewrite <- elem_of_dom. unfold parse_founder_text.
  rewrite parse_lines_dom. rewrite elem_of_dom. split.
  - intros [v Hv]. unfold empty_founder_info in Hv.
    repeat (apply lookup_insert_Some in Hv as [[<- _]|[_ Hv]];
            [cbn; auto 10|]).
    by rewrite lookup_empty in Hv.
  - intros Hk. destruct (empty_founder_info_is_str k Hk) as [v Hv]. eauto.
Qed.

(** The parser leaves [linkedin_url] empty: the link is filled in by the
    main routine only. *)
Theorem parse_founder_text_no_link text :
  parse_founder_text text !! "linkedin_url" = Some (PStr "").
Proof.
  unfold parse_founder_text, parse_lines.
  destruct (lines_of text) as [|line0 rest]; [reflexivity|].
  rewrite !clean_key_other, fold_other, set_name_other by done.
  reflexivity.
Qed.

(** What the search returns is three characters long and is itself
    matched by the pattern, from its first character to its last. *)
Lemma re_search_batch_full line m :
  re_search_batch line = Some m ->
  Py.len m = 3 /\ batch_here m = Some m.
Proof.
  intros H. destruct (re_search_batch_leftmost _ _ H) as (n & Hn & _).
  destruct (batch_here_shape _ _ Hn)
    as (a & b & c & r & _ & -> & Ha & Hb & Hc).
  split; [reflexivity|]. cbn [batch_here]. by rewrite Ha, Hb, Hc.
Qed.

(** The batch of a record is empty, or a string of three characters that
    the pattern [[SWFX]\d{2}] matches in full: the match starts at its
    first character and is the whole of it. *)
Theorem parse_founder_text_batch_code text :
  exists b,
    parse_founder_text text !! "batch" = Some (PStr b)
    /\ (b = "" \/ (Py.len b = 3 /\ batch_here b = Some b)).
Proof.
  unfold parse_founder_text, parse_lines.
  destruct (lines_of text) as [|line0 rest].
  - exists "". split; [reflexivity | by left].
  - exists (batch_of_lines rest). split.
    + rewrite !clean_key_other by done. apply fold_batch.
      by rewrite set_name_other.
    + unfold batch_of_lines. destruct (List.find batch_line rest) as [l|];
        [|by left].
      destruct (re_search_batch l) as [m|] eqn:E; [|by left].
      right. cbn [default]. by apply (re_search_batch_full l).
Qed.

Lemma split_ws_acc_tokens s : forall acc,
  all_chars nonspace acc = true ->
  Forall (fun t => all_chars nonspace t = true /\ Py.is_empty t = false)
    (Py.split_ws_acc acc s).
Proof.
  induction s as [|c s IH]; intros acc Hacc; cbn [Py.split_ws_acc].
  - destruct (Py.is_empty acc) eqn:E; by repeat constructor.
  - destruct (Py.isspace c) eqn:Hc.
    + destruct (Py.is_empty acc) eqn:E; [by apply IH|].
      constructor; [done | by apply IH].
    + apply IH. rewrite all_chars_app, Hacc. cbn [all_chars].
      unfold nonspace at 1. by rewrite Hc.
Qed.

Lemma split_ws_acc_nonempty s : forall acc,
  Py.is_empty acc = false -> Py.split_ws_acc acc s <> [].
Proof.
  induction s as [|c s IH]; intros acc Hacc; cbn [Py.split_ws_acc].
  - by rewrite Hacc.
  - destruct (Py.isspace c); [by rewrite Hacc|].
    apply IH. by destruct acc.
Qed.

Lemma split_ws_stripped line :
  stripped line -> Py.split_ws line <> [].
Proof.
  intros (c & r & -> & Hc). unfold Py.split_ws. cbn [Py.split_ws_acc].
  rewrite Hc. by apply split_ws_acc_nonempty.
Qed.

(** [first_name] never holds a whitespace character, and it is empty
    exactly when the text has no line with a character other than
    whitespace. *)
Theorem parse_founder_text_first_name text :
  exists f,
    parse_founder_text text !! "first_name" = Some (PStr f)
    /\ all_chars nonspace f = true
    /\ (Py.is_empty f = true <-> lines_of text = []).
Proof.
  unfold parse_founder_text, parse_lines.
  pose proof (lines_of_stripped text) as Hs.
  destruct (lines_of text) as [|line0 rest].
  - exists "". by repeat split.
  - apply Forall_cons in Hs as [Hs _].
    destruct (Py.split_ws line0) as [|t1 ts] eqn:Hw;
      [by apply split_ws_stripped in Hs|].
    pose proof (split_ws_acc_tokens line0 "" eq_refl) as Ht.
    fold (Py.split_ws line0) in Ht. rewrite Hw in Ht.
    apply Forall_cons in Ht as [[Hns Hne] _].
    exists t1. split; [|split; [exact Hns|]].
    + rewrite !clean_key_other, fold_other by done.
      by destruct (set_name_tokens line0 empty_founder_info t1 ts)
        as [Hf _].
    + rewrite Hne. split; discriminate.
Qed.

Lemma rstrip_idem s : Py.rstrip (Py.rstrip s) = Py.rstrip s.
Proof.
  induction s as [|c s IH]; [reflexivity|]. cbn [Py.rstrip].
  destruct (Py.isspace c && Py.is_empty (Py.rstrip s)) eqn:E;
    [reflexivity|].
  cbn [Py.rstrip]. by rewrite IH, E.
Qed.

Lemma lstrip_stripped line : stripped line -> Py.lstrip line = line.
Proof. intros (c & r & -> & Hc). cbn [Py.lstrip]. by rewrite Hc. Qed.

(** Stripping twice is stripping once. *)
Lemma strip_idem s : Py.strip (Py.strip s) = Py.strip s.
Proof.
  destruct (strip_shape s) as [E|E].
  - by rewrite E.
  - unfold Py.strip at 1. rewrite (lstrip_stripped _ E).
    unfold Py.strip. apply rstrip_idem.
Qed.

(** [current_role] and [current_company] come out trimmed: stripping
    either again changes nothing. *)
Theorem parse_founder_text_trimmed text k :
  k = "current_role" \/ k = "current_company" ->
  exists v,
    parse_founder_text text !! k = Some (PStr v) /\ Py.strip v = v.
Proof.
  intros Hk. unfold parse_founder_text, parse_lines.
  destruct (lines_of text) as [|line0 rest].
  - exists "". destruct Hk as [-> | ->]; by split.
  - set (d := fold_left parse_line rest _).
    assert (Hd : forall k', In k' parser_keys -> is_str d k').
    { intros k' Hk'. by apply fold_is_str, set_name_is_str,
        empty_founder_info_is_str. }
    destruct Hk as [-> | ->].
    + destruct (Hd "current_role") as [s Hs]; [cbn; auto|].
      exists (clean s). split; [|apply strip_idem].
      rewrite clean_key_other by done. by apply clean_key_same.
    + destruct (Hd "current_company") as [s Hs]; [cbn; auto|].
      exists (clean s). split; [|apply strip_idem].
      apply clean_key_same. by rewrite clean_key_other.
Qed.

Lemma parse_founder_text_trimmed_witness :
  exists v,
    parse_founder_text ("Ada" +:+ nl +:+ "** CTO **") !! "current_role"
    = Some (PStr v)
    /\ Py.strip v = v.
Proof. apply parse_founder_text_trimmed. by left. Defined.

End ParserRecordShape.

(** ** The profile link resolver: what is returned and when *)

Section ResolverResults.

Lemma linkedin_links_in elements url :
  In url (linkedin_links elements) ->
  In (Some url) elements /\ Py.contains "linkedin.com" url = true.
Proof.
  unfold linkedin_links. rewrite in_flat_map. intros ([u|] & Hu & Hin).
  - destruct (Py.is_empty u); cbn [negb andb] in Hin; [destruct Hin|].
    destruct (Py.contains "linkedin.com" u) eqn:E; [|destruct Hin].
    destruct Hin as [<-|[]]. by split.
  - destruct Hin.
Qed.

(** The resolver in terms of the two classes of the page. *)
Lemma extract_linkedin_url_loaded profile_url elements :
  Py.is_empty profile_url = false ->
  extract_linkedin_url profile_url (Loaded elements)
  = match List.filter is_personal (linkedin_links elements) with
    | first :: _ =>
        Some (or_first
                (best_match (founder_name_from_url profile_url)
                   (List.filter is_personal (linkedin_links elements)))
                first)
    | [] => List.head (List.filter is_company (linkedin_links elements))
    end.
Proof.
  intros Hp. unfold extract_linkedin_url. rewrite Hp, categorize_fold.
  cbn [app]. destruct (List.filter is_personal _); [|done].
  by destruct (List.filter is_company _).
Qed.

Lemma or_first_in best first (personal : list string) :
  (forall url, best = Some url -> In url personal) ->
  In first personal ->
  In (or_first best first) personal.
Proof.
  intros Hb Hf. unfold or_first. destruct best as [url|]; [|done].
  destruct (Py.is_empty url); [done | by apply Hb].
Qed.

Lemma resolved_personal profile_url elements first rest :
  List.filter is_personal (linkedin_links elements) = first :: rest ->
  In (or_first
        (best_match (founder_name_from_url profile_url) (first :: rest))
        first)
     (List.filter is_personal (linkedin_links elements)).
Proof.
  intros E. rewrite E. apply or_first_in; [|by left].
  intros url Hu. by apply find_some in Hu as [Hu _].
Qed.

(** Nothing is returned exactly when there is no profile URL, the page
    did not load, or the page has neither a personal nor an
    organizational link. *)
Theorem extract_linkedin_url_none profile_url page :
  extract_linkedin_url profile_url page = None
  <-> Py.is_empty profile_url = true
      \/ page = LoadFailed
      \/ exists elements,
           page = Loaded elements
           /\ List.filter is_personal (linkedin_links elements) = []
           /\ List.filter is_company (linkedin_links elements) = [].
Proof.
  destruct (Py.is_empty profile_url) eqn:Hp.
  - unfold extract_linkedin_url. rewrite Hp. split; auto.
  - destruct page as [|elements].
    + unfold extract_linkedin_url. rewrite Hp. split; auto.
    + rewrite (extract_linkedin_url_loaded _ _ Hp). split.
      * intros H. right. right. exists elements.
        destruct (List.filter is_personal _); [|discriminate].
        by destruct (List.filter is_company _).
      * intros [H|[H|(els & [= <-] & -> & ->)]]; done.
Qed.

(** A returned link is never made up: it is a non-empty [href] of the
    page that names the network's domain, and it is personal or
    organizational. *)
Theorem extract_linkedin_url_from_page profile_url page url :
  extract_linkedin_url profile_url page = Some url ->
  exists elements,
    page = Loaded elements
    /\ In (Some url) elements
    /\ Py.is_empty url = false
    /\ Py.contains "linkedin.com" url = true
    /\ (is_personal url = true \/ is_company url = true).
Proof.
  intros H.
  destruct (Py.is_empty profile_url) eqn:Hp;
    [unfold extract_linkedin_url in H; by rewrite Hp in H|].
  destruct page as [|elements];
    [unfold extract_linkedin_url in H; by rewrite Hp in H|].
  exists elements. split; [done|].
  rewrite (extract_linkedin_url_loaded _ _ Hp) in H.
  assert (Hin : In url (linkedin_links elements)
                /\ (is_personal url = true \/ is_company url = true)).
  { destruct (List.filter is_personal _) as [|first rest] eqn:E.
    - destruct (List.filter is_company _) as [|c cs] eqn:Ec; [done|].
      injection H as <-.
      assert (Hc : In c (List.filter is_company (linkedin_links elements)))
        by (rewrite Ec; by left).
      apply filter_In in Hc as [? ?]. auto.
    - injection H as <-.
      pose proof (resolved_personal profile_url _ _ _ E) as Hr.
      apply filter_In in Hr as [? ?]. auto. }
  destruct Hin as [Hin Hclass].
  destruct (linkedin_links_in _ _ Hin) as [Hel Hdom].
  by rewrite (linkedin_links_nonempty _ _ Hin).
Qed.

Lemma extract_linkedin_url_from_page_witness :
  exists elements,
    Loaded [None; Some "https://www.linkedin.com/company/acme"]
    = Loaded elements
    /\ In (Some "https://www.linkedin.com/company/acme") elements
    /\ Py.is_empty "https://www.linkedin.com/company/acme" = false
    /\ Py.contains "linkedin.com" "https://www.linkedin.com/company/acme"
       = true
    /\ (is_personal "https://www.linkedin.com/company/acme" = true
        \/ is_company "https://www.linkedin.com/company/acme" = true).
Proof.
  apply (extract_linkedin_url_from_page
           "https://www.ycombinator.com/founders/1-ann-lee").
  reflexivity.
Defined.

(** A personal link on the page always wins: when there is one, a link is
    returned and it is personal, whatever organizational links the page
    shows and wherever they stand. *)
Theorem personal_link_preferred profile_url elements link :
  Py.is_empty profile_url = false ->
  In link (linkedin_links elements) ->
  is_personal link = true ->
  exists url,
    extract_linkedin_url profile_url (Loaded elements) = Some url
    /\ is_personal url = true.
Proof.
  intros Hp Hin Hl. rewrite (extract_linkedin_url_loaded _ _ Hp).
  assert (Hf : In link (List.filter is_personal (linkedin_links elements)))
    by (by apply filter_In).
  destruct (List.filter is_personal _) as [|first rest] eqn:E;
    [destruct Hf|].
  eexists. split; [reflexivity|].
  pose proof (resolved_personal profile_url _ _ _ E) as Hr.
  by apply filter_In in Hr as [_ ?].
Qed.

Lemma personal_link_preferred_witness :
  exists url,
    extract_linkedin_url "https://www.ycombinator.com/founders/1-ann-lee"
      (Loaded [Some "https://www.linkedin.com/company/acme";
               Some "https://www.linkedin.com/pub/ann-lee/1/2/3"])
    = Some url
    /\ is_personal url = true.
Proof.
  apply (personal_link_preferred _ _
           "https://www.linkedin.com/pub/ann-lee/1/2/3").
  - reflexivity.
  - cbn. auto.
  - reflexivity.
Defined.

(** Without a [/founders/] segment in the profile URL no name is derived
    and names play no part: the first personal link is returned, or else
    the first organizational one. *)
Theorem no_slug_first_link profile_url elements :
  Py.is_empty profile_url = false ->
  Py.contains "/founders/" profile_url = false ->
  extract_linkedin_url profile_url (Loaded elements)
  = match List.head (List.filter is_personal (linkedin_links elements)) with
    | Some first => Some first
    | None => List.head (List.filter is_company (linkedin_links elements))
    end.
Proof.
  intros Hp Hf. rewrite (extract_linkedin_url_loaded _ _ Hp).
  destruct (List.filter is_personal _) as [|first rest]; [done|].
  cbn [List.head]. f_equal. unfold founder_name_from_url. rewrite Hf.
  unfold best_match.
  assert (Hnone : forall l, List.find (name_matches "") l = None).
  { induction l as [|x l IH]; [done|]. cbn [List.find].
    by unfold name_matches at 1. }
  by rewrite Hnone.
Qed.

Lemma no_slug_first_link_witness :
  extract_linkedin_url "https://example.org/people/ann-lee"
    (Loaded [Some "https://www.linkedin.com/in/zed";
             Some "https://www.linkedin.com/in/ann-lee"])
  = Some "https://www.linkedin.com/in/zed".
Proof.
  rewrite (no_slug_first_link "https://example.org/people/ann-lee");
    reflexivity.
Defined.

End ResolverResults.

(** ** The exhaustive loader: how a run ends *)

Section LoaderRuns.

Lemma scroll_body_break obs st st' :
  scroll_body obs st = inl st' ->
  fst obs = last_height st
  /\ last_height st' = last_height st
  /\ snd obs <= founders_loaded st
  /\ founders_loaded st' = founders_loaded st
  /\ no_change_count st' = no_change_count st + 2
  /\ 3 <= no_change_count st'.
Proof.
  unfold scroll_body. destruct obs as [new_height current_founders].
  destruct (new_height =? last_height st)%Z eqn:Eh.
  - apply Z.eqb_eq in Eh.
    destruct (founders_loaded st <? current_founders) eqn:El.
    + cbn [Nat.add Nat.leb]. discriminate.
    + destruct (3 <=? no_change_count st + 1 + 1) eqn:Ec; [|discriminate].
      intros [= <-]. cbn [fst snd last_height founders_loaded no_change_count].
      apply Nat.ltb_ge in El. apply Nat.leb_le in Ec.
      repeat split; try done; lia.
  - destruct (founders_loaded st <? current_founders); discriminate.
Qed.

Lemma scroll_body_go obs st st' :
  scroll_body obs st = inr st' ->
  last_height st' = fst obs
  /\ founders_loaded st' = Nat.max (founders_loaded st) (snd obs)
  /\ no_change_count st' <= 2.
Proof.
  unfold scroll_body. destruct obs as [new_height current_founders].
  destruct (founders_loaded st <? current_founders) eqn:El;
    [apply Nat.ltb_lt in El | apply Nat.ltb_ge in El];
    destruct (new_height =? last_height st)%Z.
  - cbn [Nat.add Nat.leb]. intros [= <-].
    cbn [fst snd last_height founders_loaded no_change_count].
    repeat split; lia.
  - intros [= <-].
    cbn [fst snd last_height founders_loaded no_change_count].
    repeat split; lia.
  - destruct (3 <=? no_change_count st + 1 + 1) eqn:Ec; [discriminate|].
    apply Nat.leb_gt in Ec. intros [= <-].
    cbn [fst snd last_height founders_loaded no_change_count].
    repeat split; lia.
  - intros [= <-].
    cbn [fst snd last_height founders_loaded no_change_count].
    repeat split; lia.
Qed.

(** What holds when the loop, entered at pass [i], breaks. *)
Lemma scroll_loop_exit page fuel : forall i st n st',
  no_change_count st <= 2 ->
  (i = 0 -> no_change_count st = 0) ->
  (0 < i -> last_height st = fst (page (i - 1))) ->
  founders_loaded st = max_seen page i ->
  scroll_loop fuel page i st = Some (n, st') ->
  i < n
  /\ (i = 0 -> 2 <= n)
  /\ 3 <= no_change_count st' <= 4
  /\ founders_loaded st' = max_seen page n
  /\ snd (page (n - 1)) <= max_seen page (n - 1)
  /\ (2 <= n -> fst (page (n - 1)) = fst (page (n - 2))).
Proof.
  induction fuel as [|fuel IH]; intros i st n st' H2 H0 Hh Hl H;
    [discriminate|].
  cbn [scroll_loop] in H.
  destruct (scroll_body (page i) st) as [s|s] eqn:Hb.
  - injection H as <- <-.
    destruct (scroll_body_break _ _ _ Hb)
      as (Hsame & Hlast & Hle & Hld & Hc & H3).
    replace (S i - 1) with i by lia. cbn [max_seen].
    split; [lia|]. split; [intros ->; specialize (H0 eq_refl); lia|].
    split; [lia|]. split; [rewrite Hld, Hl; lia|].
    split; [by rewrite <- Hl|].
    intros Hi. replace (S i - 2) with (i - 1) by lia.
    rewrite Hsame. apply Hh. lia.
  - destruct (scroll_body_go _ _ _ Hb) as (Hlast & Hld & Hc).
    destruct (IH (S i) s n st') as (Hn & _ & H3 & Hmax & Hnew & Hprev);
      [exact Hc | discriminate
      | intros _; by replace (S i - 1) with i by lia
      | by rewrite Hld, Hl | exact H |].
    repeat split; try done; lia.
Qed.

(** The loop never stops at its first pass; when it stops, the stall
    counter is 3 or 4, and the last pass showed the height of the pass
    before it and no entry count above those seen before. *)
Theorem scroll_exit_state fuel initial_height page n st :
  scroll_to_load_all_founders fuel initial_height page = Some (n, st) ->
  2 <= n
  /\ 3 <= no_change_count st <= 4
  /\ fst (page (n - 1)) = fst (page (n - 2))
  /\ snd (page (n - 1)) <= max_seen page (n - 1).
Proof.
  unfold scroll_to_load_all_founders. intros H.
  destruct (scroll_loop_exit page fuel 0 (mk_scroll initial_height 0 0)
              n st) as (_ & Hn & Hc & _ & Hnew & Hprev);
    cbn [no_change_count founders_loaded max_seen];
    [lia | done | lia | done | exact H |].
  specialize (Hn eq_refl). auto.
Qed.

Lemma scroll_exit_state_witness :
  2 <= 3
  /\ 3 <= 3 <= 4
  /\ fst ((fun i => (10%Z, Nat.min i 1)) (3 - 1))
     = fst ((fun i => (10%Z, Nat.min i 1)) (3 - 2))
  /\ snd ((fun i => (10%Z, Nat.min i 1)) (3 - 1))
     <= max_seen (fun i => (10%Z, Nat.min i 1)) (3 - 1).
Proof.
  apply (scroll_exit_state 5 10%Z (fun i => (10%Z, Nat.min i 1)) 3
           (mk_scroll 10%Z 1 3)).
  reflexivity.
Defined.

(** The figure the loader reports at the end is the largest entry count
    any pass has seen. *)
Theorem scroll_reports_largest_count fuel initial_height page n st :
  scroll_to_load_all_founders fuel initial_height page = Some (n, st) ->
  founders_loaded st = max_seen page n.
Proof.
  unfold scroll_to_load_all_founders. intros H.
  destruct (scroll_loop_exit page fuel 0 (mk_scroll initial_height 0 0)
              n st) as (_ & _ & _ & Hmax & _);
    cbn [no_change_count founders_loaded max_seen];
    [lia | done | lia | done | exact H | exact Hmax].
Qed.

Lemma scroll_reports_largest_count_witness :
  founders_loaded (mk_scroll 3%Z 9 3)
  = max_seen (fun i => (3%Z, match i with 0 => 9 | _ => 4 end)) 2.
Proof.
  apply (scroll_reports_largest_count 2 3%Z
           (fun i => (3%Z, match i with 0 => 9 | _ => 4 end)) 2
           (mk_scroll 3%Z 9 3)).
  reflexivity.
Defined.

Lemma scroll_loop_height_changes page fuel :
  (forall i, fst (page (S i)) <> fst (page i)) ->
  forall i st,
    last_height st <> fst (page i) -> scroll_loop fuel page i st = None.
Proof.
  intros Hstep. induction fuel as [|fuel IH]; intros i st Hst; [reflexivity|].
  cbn [scroll_loop].
  destruct (scroll_body (page i) st) as [s|s] eqn:Hb.
  - destruct (scroll_body_break _ _ _ Hb) as (Hsame & _). congruence.
  - apply IH. destruct (scroll_body_go _ _ _ Hb) as (-> & _).
    intros E. by apply (Hstep i).
Qed.

(** A page whose height differs at every pass from the pass before is
    never left, whatever the number of passes allowed. *)
Theorem scroll_never_ends_while_height_changes fuel initial_height page :
  initial_height <> fst (page 0) ->
  (forall i, fst (page (S i)) <> fst (page i)) ->
  scroll_to_load_all_founders fuel initial_height page = None.
Proof.
  intros H0 Hstep. unfold scroll_to_load_all_founders.
  by apply scroll_loop_height_changes.
Qed.

Lemma scroll_never_ends_while_height_changes_witness :
  scroll_to_load_all_founders 50 0%Z (fun i => (Z.of_nat (S i), 0)) = None.
Proof.
  apply scroll_never_ends_while_height_changes.
  - discriminate.
  - intros i. cbn [fst]. lia.
Defined.

Lemma scroll_loop_entries_grow page fuel :
  (forall i, max_seen page i < snd (page i)) ->
  forall i st,
    founders_loaded st = max_seen page i ->
    scroll_loop fuel page i st = None.
Proof.
  intros Hgrow. induction fuel as [|fuel IH]; intros i st Hst;
    [reflexivity|].
  cbn [scroll_loop].
  destruct (scroll_body (page i) st) as [s|s] eqn:Hb.
  - destruct (scroll_body_break _ _ _ Hb) as (_ & _ & Hle & _).
    specialize (Hgrow i). lia.
  - apply IH. destruct (scroll_body_go _ _ _ Hb) as (_ & -> & _).
    by rewrite Hst.
Qed.

(** Nor is a page that shows at every pass more entries than at any pass
    before, whatever its height does: each pass resets the stall counter,
    which the height test then raises to 1 at most. *)
Theorem scroll_never_ends_while_entries_grow fuel initial_height page :
  (forall i, max_seen page i < snd (page i)) ->
  scroll_to_load_all_founders fuel initial_height page = None.
Proof.
  intros Hgrow. unfold scroll_to_load_all_founders.
  by apply scroll_loop_entries_grow.
Qed.

Lemma max_seen_one_more (h : Z) i : max_seen (fun i => (h, S i)) i = i.
Proof. induction i as [|i IH]; [done|]. cbn [max_seen snd]. lia. Qed.

Lemma scroll_never_ends_while_entries_grow_witness :
  scroll_to_load_all_founders 50 800%Z (fun i => (800%Z, S i)) = None.
Proof.
  apply scroll_never_ends_while_entries_grow.
  intros i. rewrite max_seen_one_more. cbn [snd]. lia.
Defined.

Lemma scroll_terminates_on_stable_page_witness :
  exists n st,
    scroll_to_load_all_founders (1 + 3) 0%Z
      (fun i => match i with 0 => (7%Z, 2) | _ => (9%Z, 5) end)
    = Some (n, st)
    /\ n <= 1 + 3.
Proof.
  apply (scroll_terminates_on_stable_page _ 1).
  intros i Hi. destruct i as [|i]; [lia | reflexivity].
Defined.

End LoaderRuns.

(** ** The overview extractor, the main routine and the entry points *)

Section PipelineProperties.

Implicit Types (d : gmap string pyval).

(** The elements the extractor reads: the fallback list only when the
    primary selector gave nothing. *)
Let chosen (primary fallback : list element) : list element :=
  match primary with [] => fallback | _ :: _ => primary end.

Lemma parse_founder_text_link text :
  parse_founder_text text !! "linkedin_url" = Some (PStr "").
Proof.
  unfold parse_founder_text, parse_lines.
  destruct (lines_of text) as [|line0 rest]; [reflexivity|].
  by rewrite !clean_key_other, fold_other, set_name_other.
Qed.

Lemma overview_lookup primary fallback :
  Forall2 (fun d href =>
             d !! "profile_url" = Some (href_value href)
             /\ d !! "linkedin_url" = Some (PStr ""))
    (extract_founder_overview_data primary fallback)
    (live_hrefs (chosen primary fallback)).
Proof.
  unfold extract_founder_overview_data. fold (chosen primary fallback).
  induction (chosen primary fallback) as [|el els IH]; [constructor|].
  cbn [List.flat_map live_hrefs]. destruct el as [|href text]; [exact IH|].
  cbn [app]. constructor; [|exact IH]. split.
  - by rewrite lookup_insert_eq.
  - rewrite lookup_insert_ne by done. apply parse_founder_text_link.
Qed.

(** One record per entry element that could be read, in document order,
    each with the [href] of its element as [profile_url]; elements that
    raise are left out. *)
Theorem overview_profile_urls primary fallback :
  List.map (fun d => d !! "profile_url")
    (extract_founder_overview_data primary fallback)
  = List.map (fun href => Some (href_value href))
      (live_hrefs
         (match primary with [] => fallback | _ :: _ => primary end)).
Proof.
  pose proof (overview_lookup primary fallback) as H. unfold chosen in H.
  induction H as [|d href ds hrefs [Hd _] _ IH]; [done|].
  cbn [List.map]. by rewrite Hd, IH.
Qed.

Lemma resolve_founder_other page d k :
  k ≠ "linkedin_url" -> resolve_founder page d !! k = d !! k.
Proof.
  intros H. unfold resolve_founder.
  destruct (truthy (d !! "profile_url")); by rewrite ?lookup_insert_ne.
Qed.

(** Link resolution keeps the number and order of the records and
    changes no field but [linkedin_url]. *)
Theorem scrape_founders_keeps_fields primary fallback web :
  length (scrape_founders (Session primary fallback) web)
  = length (extract_founder_overview_data primary fallback)
  /\ forall i d,
       extract_founder_overview_data primary fallback !! i = Some d ->
       exists d',
         scrape_founders (Session primary fallback) web !! i = Some d'
         /\ forall k, k ≠ "linkedin_url" -> d' !! k = d !! k.
Proof.
  cbn [scrape_founders]. split; [apply length_imap|].
  intros i d Hd. exists (resolve_founder (web i) d). split.
  - by rewrite list_lookup_imap, Hd.
  - intros k Hk. by apply resolve_founder_other.
Qed.

Lemma scrape_founders_lookup s web i d' :
  scrape_founders s web !! i = Some d' ->
  exists primary fallback d href,
    s = Session primary fallback
    /\ d' = resolve_founder (web i) d
    /\ d !! "profile_url" = Some (href_value href)
    /\ d !! "linkedin_url" = Some (PStr "")
    /\ live_hrefs (chosen primary fallback) !! i = Some href.
Proof.
  destruct s as [|primary fallback]; [done|]. cbn [scrape_founders].
  rewrite list_lookup_imap. intros H.
  destruct (extract_founder_overview_data primary fallback !! i)
    as [d|] eqn:Hd; [|done].
  injection H as <-.
  pose proof (overview_lookup primary fallback) as Hall.
  destruct (Forall2_lookup_l _ _ _ _ _ Hall Hd) as (href & Hh & Hp & Hl).
  by exists primary, fallback, d, href.
Qed.

(** The link of a record: what the resolver returns for the record's
    profile URL on the page of that visit, and the empty string when it
    returns nothing or the record has no profile URL. *)
Theorem scrape_founders_link s web i d' :
  scrape_founders s web !! i = Some d' ->
  d' !! "linkedin_url"
  = Some (PStr
            match d' !! "profile_url" with
            | Some (PStr url) =>
                default "" (extract_linkedin_url url (web i url))
            | _ => ""
            end).
Proof.
  intros H.
  destruct (scrape_founders_lookup _ _ _ _ H)
    as (primary & fallback & d & href & _ & -> & Hp & Hl & _).
  rewrite resolve_founder_profile_url, Hp. unfold resolve_founder.
  rewrite Hp. destruct href as [url|]; cbn [href_value truthy]; [|done].
  destruct (Py.is_empty url) eqn:E; cbn [negb].
  - rewrite Hl. unfold extract_linkedin_url. by rewrite E.
  - rewrite lookup_insert_eq. unfold str_at. by rewrite Hp.
Qed.

Lemma scrape_founders_link_witness :
  <["linkedin_url" := PStr "https://www.linkedin.com/in/ada"]>
    (<["profile_url" := PStr "https://www.ycombinator.com/founders/7-ada"]>
       (parse_founder_text "Ada")) !! "linkedin_url"
  = Some (PStr
            match
              <["linkedin_url" := PStr "https://www.linkedin.com/in/ada"]>
                (<["profile_url" :=
                     PStr "https://www.ycombinator.com/founders/7-ada"]>
                   (parse_founder_text "Ada")) !! "profile_url"
            with
            | Some (PStr url) =>
                default ""
                  (extract_linkedin_url url
                     (Loaded [Some "https://www.linkedin.com/in/ada"]))
            | _ => ""
            end).
Proof.
  apply (scrape_founders_link
           (Session
              [Stale;
               Elem (Some "https://www.ycombinator.com/founders/7-ada") "Ada"]
              [])
           (fun _ _ => Loaded [Some "https://www.linkedin.com/in/ada"]) 0).
  vm_compute. reflexivity.
Defined.

Lemma filter_length_le {A} (P Q : A -> bool) (l : list A) :
  (forall x, In x l -> P x = true -> Q x = true) ->
  length (List.filter P l) <= length (List.filter Q l).
Proof.
  induction l as [|x l IH]; intros H; [done|]. cbn [List.filter].
  assert (IH' : length (List.filter P l) <= length (List.filter Q l)).
  { apply IH. intros y Hy. apply H. by right. }
  destruct (P x) eqn:Ep.
  - rewrite (H x (or_introl eq_refl) Ep). cbn [length]. lia.
  - destruct (Q x); cbn [length]; lia.
Qed.

(** The summary never counts a founder without a profile URL: the number
    of founders with a link is at most the number with a profile URL. *)
Theorem with_linkedin_needs_profile s web :
  with_linkedin (scrape_founders s web)
  <= length (List.filter (fun f => truthy (f !! "profile_url"))
               (scrape_founders s web)).
Proof.
  unfold with_linkedin. apply filter_length_le. intros d' Hin Hl.
  apply list_elem_of_In, list_elem_of_lookup in Hin as [i Hi].
  destruct (scrape_founders_lookup _ _ _ _ Hi)
    as (primary & fallback & d & href & _ & -> & Hp & Hlk & _).
  rewrite resolve_founder_profile_url.
  unfold resolve_founder in Hl.
  destruct (truthy (d !! "profile_url")); [done|].
  by rewrite Hlk in Hl.
Qed.

End PipelineProperties.

(** ** The records handed to the exporter: the seven fields *)

Section ExportedRecords.

(** C9 (amended). In every record handed to the exporter, whatever the
    pages show and however the link resolution ends, the six keys
    [first_name], [last_name], [current_role], [current_company],
    [batch] and [linkedin_url] are present and hold strings; the key
    [profile_url] is present and holds the [href] of the entry element
    the record was made from, the [i]-th one that could be read for
    record [i]: a string, or [None] when the element has no such
    attribute. *)
Theorem exported_record_fields s web i founder :
  scrape_founders s web !! i = Some founder ->
  (forall k, In k parser_keys -> is_str founder k)
  /\ exists primary fallback href,
       s = Session primary fallback
       /\ live_hrefs
            (match primary with [] => fallback | _ :: _ => primary end)
            !! i = Some href
       /\ founder !! "profile_url" = Some (href_value href).
Proof.
  intros H. split.
  - apply (scrape_founders_parser_keys s web).
    apply list_elem_of_In. by apply list_elem_of_lookup_2 in H.
  - destruct (scrape_founders_lookup _ _ _ _ H)
      as (primary & fallback & d & href & -> & -> & Hp & _ & Hi).
    exists primary, fallback, href. split; [done|]. split; [exact Hi|].
    by rewrite resolve_founder_profile_url.
Qed.

Lemma exported_record_fields_witness :
  (forall k, In k parser_keys ->
     is_str (<["profile_url" := PNone]> (parse_founder_text "Bo")) k)
  /\ exists primary fallback href,
       Session
         [Stale;
          Elem (Some "https://www.ycombinator.com/founders/7-ada-byron")
            " Ada Byron ";
          Elem None "Bo"] []
       = Session primary fallback
       /\ live_hrefs
            (match primary with [] => fallback | _ :: _ => primary end)
            !! 1 = Some href
       /\ <["profile_url" := PNone]> (parse_founder_text "Bo")
            !! "profile_url" = Some (href_value href).
Proof.
  apply (exported_record_fields
           (Session
              [Stale;
               Elem (Some "https://www.ycombinator.com/founders/7-ada-byron")
                 " Ada Byron ";
               Elem None "Bo"] [])
           (fun _ _ => Loaded [Some "https://www.linkedin.com/in/ada"]) 1).
  vm_compute. reflexivity.
Defined.

End ExportedRecords.

(** ** The exporter and the runner: what reaches the file *)

Section ExportedFile.

Implicit Types (d : gmap string pyval).

(** A value of [None], an empty string and a missing key cannot be told
    apart in the file: all three give the same row. *)
Theorem row_of_null_like d k :
  row_of (<[k := PNone]> d) = row_of (<[k := PStr ""]> d)
  /\ row_of (<[k := PNone]> d) = row_of (delete k d).
Proof.
  unfold row_of. split; apply map_ext; intros col;
    destruct (decide (k = col)) as [->|Hne];
    by rewrite ?lookup_insert_eq, ?lookup_delete_eq,
         ?lookup_insert_ne, ?lookup_delete_ne.
Qed.

(** A key outside the seven columns never reaches the file. *)
Theorem row_of_ignores_other_keys d k v :
  ~ In k columns -> row_of (<[k := v]> d) = row_of d.
Proof.
  intros Hk. unfold row_of. apply map_ext_in. intros col Hcol.
  rewrite lookup_insert_ne; [done|]. by intros ->.
Qed.

Lemma row_of_ignores_other_keys_witness :
  row_of (<["notes" := PStr "met at demo day"]> (parse_founder_text "Ada"))
  = row_of (parse_founder_text "Ada").
Proof.
  apply row_of_ignores_other_keys. cbn [In columns].
  intros H. repeat (destruct H as [H|H]; [discriminate|]). exact H.
Defined.

(** The file is opened for writing: a later save of at least one record
    replaces what an earlier save left under the same name, while a later
    save of no record leaves the earlier file in place. *)
Theorem save_to_csv_twice earlier founder data filename fs :
  save_to_csv (founder :: data) filename (save_to_csv earlier filename fs)
  = save_to_csv (founder :: data) filename fs
  /\ save_to_csv [] filename (save_to_csv earlier filename fs)
     = save_to_csv earlier filename fs.
Proof.
  split; [|reflexivity]. destruct earlier; [reflexivity|].
  unfold save_to_csv. by rewrite insert_insert_eq.
Qed.

Lemma row_of_length d : length (row_of d) = 7.
Proof. unfold row_of. by rewrite length_map. Qed.

Lemma scrape_founders_length primary fallback web :
  length (scrape_founders (Session primary fallback) web)
  = length (live_hrefs
              (match primary with [] => fallback | _ :: _ => primary end)).
Proof.
  cbn [scrape_founders]. rewrite length_imap.
  pose proof (overview_lookup primary fallback) as H.
  by apply Forall2_length in H.
Qed.

(** What saving the returned records leaves: nothing new when there is
    no record, else the header and one row of seven fields per element
    that could be read. *)
Lemma saved_file_rows primary fallback web fs :
  match
    live_hrefs (match primary with [] => fallback | _ :: _ => primary end)
  with
  | [] =>
      save_to_csv (scrape_founders (Session primary fallback) web)
        "yc_founders.csv" fs = fs
  | hrefs =>
      exists rows,
        save_to_csv (scrape_founders (Session primary fallback) web)
          "yc_founders.csv" fs !! "yc_founders.csv"
        = Some (columns :: rows)
        /\ length rows = length hrefs
        /\ Forall (fun row => length row = 7) rows
  end.
Proof.
  pose proof (scrape_founders_length primary fallback web) as Hlen.
  destruct (live_hrefs _) as [|href hrefs].
  - by destruct (scrape_founders _ _).
  - destruct (scrape_founders _ _) as [|d ds] eqn:E; [done|].
    exists (List.map row_of (d :: ds)). unfold save_to_csv.
    rewrite lookup_insert_eq. split; [done|]. split.
    + by rewrite length_map.
    + apply Forall_forall. intros row Hrow.
      apply list_elem_of_In, in_map_iff in Hrow as (x & <- & _).
      apply row_of_length.
Qed.

(** In that file the last field of row [i] is the [href] of the [i]-th
    element that could be read, and empty when the element has none: a
    [profile_url] of [None] is exported as the empty field. *)
Theorem run_main_profile_url_field primary fallback web fs i href :
  live_hrefs (match primary with [] => fallback | _ :: _ => primary end)
    !! i = Some href ->
  exists rows row,
    run_main (Session primary fallback) web fs !! "yc_founders.csv"
    = Some (columns :: rows)
    /\ rows !! i = Some row
    /\ row !! 6 = Some (default "" href).
Proof.
  intros Hi.
  pose proof (scrape_founders_length primary fallback web) as Hlen.
  assert (Hlt : i < length (scrape_founders (Session primary fallback) web)).
  { rewrite Hlen. by apply lookup_lt_Some in Hi. }
  apply lookup_lt_is_Some in Hlt as [d' Hd'].
  destruct (scrape_founders_lookup _ _ _ _ Hd')
    as (p & f & d & href' & [= <- <-] & -> & Hp & _ & Hi').
  rewrite Hi in Hi'. injection Hi' as <-.
  unfold run_main.
  destruct (scrape_founders _ _) as [|d0 ds] eqn:E; [done|].
  exists (List.map row_of (d0 :: ds)), (row_of (resolve_founder (web i) d)).
  unfold save_to_csv. rewrite lookup_insert_eq. split; [done|]. split.
  - change (List.map row_of) with (fmap (M:=list) row_of).
    by rewrite list_lookup_fmap, Hd'.
  - unfold row_of. cbn [columns List.map lookup list_lookup].
    rewrite resolve_founder_profile_url, Hp. by destruct href.
Qed.

Lemma run_main_profile_url_field_witness :
  exists rows row,
    run_main (Session [Elem (Some "/founders/1-ann") "Ann"; Elem None "Bo"] [])
      (fun _ _ => LoadFailed) ∅ !! "yc_founders.csv"
    = Some (columns :: rows)
    /\ rows !! 1 = Some row
    /\ row !! 6 = Some (default "" None).
Proof.
  apply run_main_profile_url_field. reflexivity.
Defined.

Lemma loader_returns_on_stable_page scroll k initial_height :
  (forall i, k <= i -> scroll i = scroll k) ->
  exists result,
    scroll_to_load_all_founders (k + 3) initial_height scroll = Some result.
Proof.
  intros Hstable. unfold scroll_to_load_all_founders.
  destruct (scroll_loop_reaches_stable scroll k Hstable (S k) 0
              (mk_scroll initial_height 0 0)) as (n & st & Hn & _);
    [lia | lia |].
  exists (n, st). rewrite <- Hn. f_equal. lia.
Qed.

(** The runner end to end, the loader included. On a directory page
    whose height and entry count are the same at every pass from pass
    [k] on, the run returns (within [k + 3] passes of the scroll loop),
    and then: when no entry element can be read the file system is left
    as it was; otherwise [yc_founders.csv] holds the header and one row
    of seven fields per element that could be read. *)
Theorem run_main_loading_file scroll k initial_height primary fallback
    web fs :
  (forall i, k <= i -> scroll i = scroll k) ->
  exists fs',
    run_main_loading (k + 3) initial_height scroll
      (Session primary fallback) web fs = Some fs'
    /\ match
         live_hrefs
           (match primary with [] => fallback | _ :: _ => primary end)
       with
       | [] => fs' = fs
       | hrefs =>
           exists rows,
             fs' !! "yc_founders.csv" = Some (columns :: rows)
             /\ length rows = length hrefs
             /\ Forall (fun row => length row = 7) rows
       end.
Proof.
  intros Hstable.
  destruct (loader_returns_on_stable_page scroll k initial_height Hstable)
    as [result Hr].
  exists (save_to_csv (scrape_founders (Session primary fallback) web)
            "yc_founders.csv" fs).
  split.
  - unfold run_main_loading, scrape_founders_loading. by rewrite Hr.
  - apply saved_file_rows.
Qed.

Lemma run_main_loading_file_witness :
  exists fs',
    run_main_loading (1 + 3) 0%Z
      (fun i => match i with 0 => (7%Z, 2) | _ => (9%Z, 3) end)
      (Session [Elem (Some "/founders/1-ann") "Ann"; Stale; Elem None "Bo"]
         [])
      (fun _ _ => LoadFailed) ∅ = Some fs'
    /\ match
         live_hrefs [Elem (Some "/founders/1-ann") "Ann"; Stale;
                     Elem None "Bo"]
       with
       | [] => fs' = ∅
       | hrefs =>
           exists rows,
             fs' !! "yc_founders.csv" = Some (columns :: rows)
             /\ length rows = length hrefs
             /\ Forall (fun row => length row = 7) rows
       end.
Proof.
  apply (run_main_loading_file _ 1).
  intros i Hi. destruct i as [|i]; [lia | reflexivity].
Defined.

(** A run returns only when its loader does: on a directory page that
    shows at every pass more entries than at any pass before, the runner
    has not returned after any number of passes, and so has written no
    file; a session that fails returns at once and writes nothing. *)
Theorem run_main_loading_never_returns fuel initial_height scroll primary
    fallback web fs :
  (forall i, max_seen scroll i < snd (scroll i)) ->
  run_main_loading fuel initial_height scroll (Session primary fallback)
    web fs = None
  /\ run_main_loading fuel initial_height scroll SessionFailed web fs
     = Some fs.
Proof.
  intros Hgrow. split; [|reflexivity].
  unfold run_main_loading, scrape_founders_loading,
    scroll_to_load_all_founders.
  by rewrite scroll_loop_entries_grow.
Qed.

Lemma run_main_loading_never_returns_witness :
  run_main_loading 40 800%Z (fun i => (800%Z, S i))
    (Session [Elem None "Bo"] []) (fun _ _ => LoadFailed) ∅ = None
  /\ run_main_loading 40 800%Z (fun i => (800%Z, S i)) SessionFailed
       (fun _ _ => LoadFailed) ∅ = Some ∅.
Proof.
  apply run_main_loading_never_returns.
  intros i. rewrite max_seen_one_more. cbn [snd]. lia.
Defined.

End ExportedFile.

(** ** The text parser: whitespace around the block *)

Section SurroundingWhitespace.

(** The lines the loop gets from the pieces of [text.split('\n')]. *)
Let kept (pieces : list string) : list string :=
  List.map Py.strip (List.filter nonblank pieces).

Lemma len_app a b : Py.len (a +:+ b) = Py.len a + Py.len b.
Proof.
  induction a as [|c a IH]; [reflexivity|].
  rewrite append_cons. unfold Py.len in *. cbn [String.length].
  by rewrite IH.
Qed.

Lemma split_once_shorter s a b :
  Py.split_once nl s = Some (a, b) -> Py.len b < Py.len s.
Proof.
  intros H. rewrite (split_once_sound _ _ _ _ H), !len_app.
  unfold nl, Py.len. cbn [String.length]. lia.
Qed.

Lemma split_once_nl_empty : Py.split_once nl "" = None.
Proof. reflexivity. Qed.

(** Fuel beyond the length of the string changes nothing. *)
Lemma split_max_fuel n : forall m s,
  Py.len s <= n -> Py.len s <= m ->
  Py.split_max n nl s = Py.split_max m nl s.
Proof.
  induction n as [|n IH]; intros m s Hn Hm.
  - destruct s; [|unfold Py.len in Hn; cbn in Hn; lia].
    by destruct m.
  - destruct m as [|m].
    + destruct s; [|unfold Py.len in Hm; cbn in Hm; lia]. reflexivity.
    + cbn [Py.split_max].
      destruct (Py.split_once nl s) as [[a b]|] eqn:E; [|done].
      apply split_once_shorter in E. f_equal. apply IH; lia.
Qed.

Lemma split_nl_here s :
  Py.split nl (String "010" s) = "" :: Py.split nl s.
Proof.
  unfold Py.split. change (Py.len (String "010" s)) with (S (Py.len s)).
  cbn [Py.split_max]. rewrite split_once_cons.
  assert (E : String.prefix nl (String "010" s) = true)
    by (unfold nl; cbn [String.prefix]; by destruct s).
  by rewrite E.
Qed.

Lemma split_once_nl_skip c s :
  c <> "010"%char ->
  Py.split_once nl (String c s)
  = match Py.split_once nl s with
    | Some (a, b) => Some (String c a, b)
    | None => None
    end.
Proof.
  intros Hc. rewrite split_once_cons.
  destruct (String.prefix nl (String c s)) eqn:E; [|done].
  unfold nl in E. by apply prefix_head in E.
Qed.

Lemma split_max_S n sep s :
  Py.split_max (S n) sep s
  = match Py.split_once sep s with
    | None => [s]
    | Some (a, b) => a :: Py.split_max n sep b
    end.
Proof. reflexivity. Qed.

Lemma split_nl_skip c s :
  c <> "010"%char ->
  Py.split nl (String c s)
  = match Py.split nl s with
    | a :: rest => String c a :: rest
    | [] => [String c ""]
    end.
Proof.
  intros Hc. unfold Py.split.
  change (Py.len (String c s)) with (S (Py.len s)).
  rewrite (split_max_S (Py.len s) nl (String c s)).
  rewrite (split_once_nl_skip _ _ Hc).
  destruct s as [|x s]; [reflexivity|].
  change (Py.len (String x s)) with (S (Py.len s)).
  rewrite (split_max_S (Py.len s) nl (String x s)).
  destruct (Py.split_once nl (String x s)) as [[a b]|] eqn:E; [|done].
  f_equal. apply split_once_shorter in E.
  change (Py.len (String x s)) with (S (Py.len s)) in E.
  apply split_max_fuel; lia.
Qed.

Lemma split_nonempty s : exists a rest, Py.split nl s = a :: rest.
Proof.
  unfold Py.split. destruct (Py.len s); cbn [Py.split_max]; [eauto|].
  destruct (Py.split_once nl s) as [[a b]|]; eauto.
Qed.

Lemma isspace_not_nl c : Py.isspace c = false -> c <> "010"%char.
Proof. by intros H ->. Qed.

Lemma strip_space_cons c a :
  Py.isspace c = true -> Py.strip (String c a) = Py.strip a.
Proof. intros H. unfold Py.strip. cbn [Py.lstrip]. by rewrite H. Qed.

Lemma strip_nonspace_cons c a :
  Py.isspace c = false -> Py.strip (String c a) = String c (Py.rstrip a).
Proof.
  intros H. unfold Py.strip. cbn [Py.lstrip]. rewrite H.
  by apply rstrip_nonspace.
Qed.

Lemma nonblank_strip a a' :
  Py.strip a' = Py.strip a -> nonblank a' = nonblank a.
Proof. unfold nonblank. by intros ->. Qed.

Lemma kept_cons_strip a a' rest rest' :
  Py.strip a' = Py.strip a -> kept rest' = kept rest ->
  kept (a' :: rest') = kept (a :: rest).
Proof.
  intros Ha Hr. unfold kept in *. cbn [List.filter].
  rewrite (nonblank_strip _ _ Ha).
  destruct (nonblank a); cbn [List.map]; by rewrite ?Ha, Hr.
Qed.

(** A leading whitespace character does not change the lines. *)
Lemma lines_of_space_cons c s :
  Py.isspace c = true -> lines_of (String c s) = lines_of s.
Proof.
  intros Hc. unfold lines_of. fold (kept (Py.split nl (String c s))).
  fold (kept (Py.split nl s)).
  destruct (ascii_dec c "010") as [->|Hnl]; [by rewrite split_nl_here|].
  rewrite (split_nl_skip _ _ Hnl).
  destruct (Py.split nl s) as [|a rest].
  - unfold kept. cbn [List.filter]. unfold nonblank.
    by rewrite (strip_space_cons _ _ Hc).
  - apply kept_cons_strip; [by apply strip_space_cons | done].
Qed.

Lemma lines_of_lstrip s : lines_of (Py.lstrip s) = lines_of s.
Proof.
  induction s as [|c s IH]; [done|]. cbn [Py.lstrip].
  destruct (Py.isspace c) eqn:Hc; [|done].
  by rewrite IH, (lines_of_space_cons _ _ Hc).
Qed.

Lemma rstrip_empty_all_space s :
  Py.rstrip s = "" -> all_chars Py.isspace s = true.
Proof.
  induction s as [|c s IH]; [done|]. cbn [Py.rstrip all_chars].
  destruct (Py.isspace c); [|discriminate]. cbn [andb].
  destruct (Py.rstrip s); [auto | discriminate].
Qed.

Lemma rstrip_all_space s :
  all_chars Py.isspace s = true -> Py.rstrip s = "".
Proof.
  induction s as [|c s IH]; [done|]. cbn [Py.rstrip all_chars].
  intros H. apply andb_true_iff in H as [-> H]. by rewrite (IH H).
Qed.

Lemma kept_all_space pieces :
  Forall (fun piece => all_chars Py.isspace piece = true) pieces ->
  kept pieces = [].
Proof.
  induction 1 as [|piece pieces Hp _ IH]; [reflexivity|].
  unfold kept in *. cbn [List.filter]. unfold nonblank at 1, Py.strip.
  by rewrite (lstrip_all_space _ Hp).
Qed.

(** Trailing whitespace: the first piece changes by trailing whitespace
    only and the lines of the other pieces stay. *)
Lemma split_rstrip s :
  exists a rest a' rest',
    Py.split nl s = a :: rest
    /\ Py.split nl (Py.rstrip s) = a' :: rest'
    /\ Py.rstrip a' = Py.rstrip a
    /\ Py.strip a' = Py.strip a
    /\ kept rest' = kept rest.
Proof.
  induction s as [|c s IH].
  - by exists "", [], "", [].
  - destruct IH as (a & rest & a' & rest' & Hs & Hs' & Hr & Hst & Hk).
    cbn [Py.rstrip].
    destruct (Py.isspace c && Py.is_empty (Py.rstrip s)) eqn:E.
    + apply andb_true_iff in E as [Hc Hempty].
      assert (Hall : all_chars Py.isspace (String c s) = true).
      { cbn [all_chars]. rewrite Hc. apply rstrip_empty_all_space.
        by destruct (Py.rstrip s). }
      pose proof (split_max_all_chars Py.isspace nl
                    (Py.len (String c s)) _ Hall) as Hp.
      fold (Py.split nl (String c s)) in Hp.
      destruct (split_nonempty (String c s)) as (b & bs & Hb).
      rewrite Hb in Hp. apply Forall_cons in Hp as [Hb1 Hb2].
      exists b, bs, "", []. split; [done|]. split; [done|].
      split; [by rewrite (rstrip_all_space _ Hb1)|]. split.
      * unfold Py.strip. by rewrite (lstrip_all_space _ Hb1).
      * by rewrite (kept_all_space _ Hb2).
    + destruct (ascii_dec c "010") as [->|Hnl].
      * exists "", (a :: rest), "", (a' :: rest').
        rewrite !split_nl_here, Hs, Hs'. repeat split; try done.
        by apply kept_cons_strip.
      * exists (String c a), rest, (String c a'), rest'.
        rewrite !(split_nl_skip _ _ Hnl), Hs, Hs'.
        split; [done|]. split; [done|]. split; [|split; [|done]].
        -- cbn [Py.rstrip]. by rewrite Hr.
        -- destruct (Py.isspace c) eqn:Hc.
           ++ by rewrite !(strip_space_cons _ _ Hc).
           ++ by rewrite !(strip_nonspace_cons _ _ Hc), Hr.
Qed.

Lemma lines_of_rstrip s : lines_of (Py.rstrip s) = lines_of s.
Proof.
  destruct (split_rstrip s)
    as (a & rest & a' & rest' & Hs & Hs' & _ & Hst & Hk).
  unfold lines_of. rewrite Hs, Hs'.
  by apply kept_cons_strip.
Qed.

(** Whitespace and blank lines around the block do not matter to the
    parser: the text stripped, as the overview extractor hands it over,
    parses to the same record as the text itself. *)
Theorem parse_founder_text_strip text :
  parse_founder_text (Py.strip text) = parse_founder_text text.
Proof.
  unfold parse_founder_text, Py.strip.
  by rewrite lines_of_rstrip, lines_of_lstrip.
Qed.

End SurroundingWhitespace.
